(** * DiagramWrapper: key allocation, drop handling, listeners, ports and
      link labels

    A shallow embedding of [src/components/DiagramWrapper.tsx] (two
    versions of the component: the one with [determineNodeType], called
    variant A below, and the one without, variant B) and of
    [src/components/initGoJs.ts].

    JavaScript numbers that serve as keys are modelled as [Z]: the data
    model declares keys to be integers, and [k++] / [k--] are exact on the
    integers a double represents exactly.  View and document coordinates
    are IEEE binary64 values, modelled by Rocq's primitive floats.  A
    property that may be [undefined] is an [option]. *)

From Stdlib Require Import ZArith Lia Ascii.
From Stdlib Require Import Floats.PrimFloat.
From Equations.Prop Require Import Equations Logic.
From stdpp Require Import base option gmap strings.

#[local] Set Warnings "-inexact-float".

Local Open Scope Z_scope.

(** ** Data model *)

(** [enum DropType] of variant A; its members are strings at run time. *)
Inductive DropType : Type :=
  | Screen
  | Branching
  | Start
  | End_.

Definition DropType_value (c : DropType) : string :=
  match c with
  | Screen => "Screen"
  | Branching => "Branching"
  | Start => "Start"
  | End_ => "End"
  end.

(** [go.Point]. *)
Record Point : Type := mkPoint { px : float; py : float }.

(** The object literal [{ location, text, category }] handed to
    [addNodeData], together with the [key] property the model adds. *)
Record NodeData : Type := mkNodeData {
  key : option Z;
  location : option Point;
  text : string;
  category : DropType
}.

(** A link data object: [key] is the [linkKeyProperty], [fromPort] and
    [toPort] the port identifier properties named in [initDiagram]. *)
Record LinkData : Type := mkLinkData {
  lkey : option Z;
  from : Z;
  to : Z;
  fromPort : string;
  toPort : string
}.

Definition set_key (data : NodeData) (k : Z) : NodeData :=
  mkNodeData (Some k) (location data) (text data) (category data).

Definition set_lkey (data : LinkData) (k : Z) : LinkData :=
  mkLinkData (Some k) (from data) (to data) (fromPort data) (toPort data).

(** Modelled from the spec: the model object of the diagramming library
    ([go.GraphLinksModel]), which is not part of this repository.  It
    indexes the node records and the link records by key. *)
Record GraphLinksModel : Type := mkModel {
  nodes : gmap Z NodeData;
  links : gmap Z LinkData
}.

Definition empty_model : GraphLinksModel := mkModel ∅ ∅.

(** Modelled from the spec: [Model.findNodeDataForKey] of the library, the
    record stored under a key, or [null]. *)
Definition findNodeDataForKey (m : GraphLinksModel) (k : Z) : option NodeData :=
  nodes m !! k.

(** Modelled from the spec: [GraphLinksModel.findLinkDataForKey]. *)
Definition findLinkDataForKey (m : GraphLinksModel) (k : Z) : option LinkData :=
  links m !! k.

(** ** Key allocation (the model options of [initDiagram]) *)

(** [data.key || dflt]: [undefined] and [0] are falsy, every other integer
    is truthy. *)
Definition key_or (k : option Z) (dflt : Z) : Z :=
  match k with
  | Some z => if decide (z = 0) then dflt else z
  | None => dflt
  end.

(** The number of keys the upward scan from [k] can still meet. *)
Definition keys_from (m : GraphLinksModel) (k : Z) : nat :=
  size (filter (λ j, k ≤ j) (dom (nodes m))).

(** The number of keys the downward scan from [k] can still meet. *)
Definition lkeys_upto (m : GraphLinksModel) (k : Z) : nat :=
  size (filter (λ j, j ≤ k) (dom (links m))).

(** Termination of the two scans: a key that is in use leaves the part
    of the key set the scan has still to cross. *)
Ltac scan_decreases k :=
  apply subset_size; split;
  [ intros ? [? ?]%elem_of_filter; apply elem_of_filter; split; [lia|done]
  | let Hsub := fresh "Hsub" in
    intros Hsub; specialize (Hsub k); rewrite !elem_of_filter in Hsub;
    destruct Hsub as [? _]; [split; [lia|apply elem_of_dom; eauto]|lia] ].

(** [while (m.findNodeDataForKey(k)) k++;] *)
Equations scan_up (m : GraphLinksModel) (k : Z) : Z
  by wf (keys_from m k) lt :=
  scan_up m k with inspect (findNodeDataForKey m k) := {
    | exist _ (Some nd) Hk => scan_up m (k + 1)
    | exist _ None _ => k
  }.
Next Obligation. intros m k nd Hk _. unfold keys_from. scan_decreases k. Qed.

(** [while (m.findLinkDataForKey(k)) k--;] *)
Equations scan_down (m : GraphLinksModel) (k : Z) : Z
  by wf (lkeys_upto m k) lt :=
  scan_down m k with inspect (findLinkDataForKey m k) := {
    | exist _ (Some ld) Hk => scan_down m (k - 1)
    | exist _ None _ => k
  }.
Next Obligation. intros m k ld Hk _. unfold lkeys_upto. scan_decreases k. Qed.

(** [makeUniqueKeyFunction]: the returned key, and the record after
    [data.key = k]. *)
Definition makeUniqueKeyFunction (m : GraphLinksModel) (data : NodeData)
  : Z * NodeData :=
  let k := scan_up m (key_or (key data) 1) in
  (k, set_key data k).

(** [makeUniqueLinkKeyFunction]. *)
Definition makeUniqueLinkKeyFunction (m : GraphLinksModel) (data : LinkData)
  : Z * LinkData :=
  let k := scan_down m (key_or (lkey data) (-1)) in
  (k, set_lkey data k).

(** Modelled from the spec: [Model.addNodeData] of the library.  A record
    inserted without a key gets its key from the model's
    [makeUniqueKeyFunction] and is stored under it; so does, after the
    library's documentation, a record whose key is already in use.  A
    record that brings a free key keeps it. *)
Definition addNodeData (m : GraphLinksModel) (data : NodeData)
  : GraphLinksModel :=
  let keyed :=
    match key data with
    | Some k =>
        match findNodeDataForKey m k with
        | Some _ => makeUniqueKeyFunction m data
        | None => (k, data)
        end
    | None => makeUniqueKeyFunction m data
    end in
  mkModel (<[fst keyed := snd keyed]> (nodes m)) (links m).

(** Modelled from the spec: [GraphLinksModel.addLinkData], the same for
    link records and [makeUniqueLinkKeyFunction]. *)
Definition addLinkData (m : GraphLinksModel) (data : LinkData)
  : GraphLinksModel :=
  let keyed :=
    match lkey data with
    | Some k =>
        match findLinkDataForKey m k with
        | Some _ => makeUniqueLinkKeyFunction m data
        | None => (k, data)
        end
    | None => makeUniqueLinkKeyFunction m data
    end in
  mkModel (nodes m) (<[fst keyed := snd keyed]> (links m)).

(** Modelled from the spec: [Model.removeNodeData], a delete action: the
    record leaves the model and its key becomes free. *)
Definition removeNodeData (m : GraphLinksModel) (data : NodeData)
  : GraphLinksModel :=
  match key data with
  | Some k => mkModel (delete k (nodes m)) (links m)
  | None => m
  end.

(** Modelled from the spec: [GraphLinksModel.removeLinkData]. *)
Definition removeLinkData (m : GraphLinksModel) (data : LinkData)
  : GraphLinksModel :=
  match lkey data with
  | Some k => mkModel (nodes m) (delete k (links m))
  | None => m
  end.

(** The edits that leave every key to the two functions above: inserting
    a record without a key, inserting a record whose key is taken (a
    pasted copy), and deleting a record. *)
Inductive edit : GraphLinksModel → GraphLinksModel → Prop :=
  | edit_add_node m data :
      key data = None → edit m (addNodeData m data)
  | edit_add_link m data :
      lkey data = None → edit m (addLinkData m data)
  | edit_copy_node m data k :
      key data = Some k → is_Some (findNodeDataForKey m k) →
      edit m (addNodeData m data)
  | edit_copy_link m data k :
      lkey data = Some k → is_Some (findLinkDataForKey m k) →
      edit m (addLinkData m data)
  | edit_remove_node m data : edit m (removeNodeData m data)
  | edit_remove_link m data : edit m (removeLinkData m data).

(** The model states such edits reach from the empty model. *)
Definition reachable (m : GraphLinksModel) : Prop := rtc edit empty_model m.

(** ** initGoJs.ts *)

Module InitGoJs.

(** The [go.Spot] constants the port declarations use. *)
Inductive Spot : Type :=
  | Top | Left | Right | Bottom
  | TopSide | LeftSide | RightSide | BottomSide.

Definition Spot_equals (a b : Spot) : bool :=
  match a, b with
  | Top, Top | Left, Left | Right, Right | Bottom, Bottom
  | TopSide, TopSide | LeftSide, LeftSide
  | RightSide, RightSide | BottomSide, BottomSide => true
  | _, _ => false
  end.

Inductive Stretch : Type := Horizontal | Vertical.

(** The property bag [ps] of [makePort] (the two mouse handlers, which
    only recolour the port, are left out). *)
Record Port : Type := mkPort {
  fill : string;
  strokeWidth : float;
  width : float;
  height : float;
  alignment : Spot;
  stretch : Stretch;
  portId : string;
  fromSpot : Spot;
  fromLinkable : bool;
  toSpot : Spot;
  toLinkable : bool;
  cursor : string
}.

Definition makePort (name : string) (align spot : Spot) (output input : bool)
  : Port :=
  let horizontal := Spot_equals align Top || Spot_equals align Bottom in
  {| fill := "transparent";
     strokeWidth := 0%float;
     width := if horizontal then nan else 8%float;
     height := if negb horizontal then nan else 8%float;
     alignment := align;
     stretch := if horizontal then Horizontal else Vertical;
     portId := name;
     fromSpot := spot;
     fromLinkable := output;
     toSpot := spot;
     toLinkable := input;
     cursor := "pointer" |}.

(** A node template, as far as links are concerned: the figure of its
    shape and the ports it is built with. *)
Record NodeTemplate : Type := mkTemplate {
  figure : string;
  ports : list Port
}.

(** A named part of a link panel and its [visible] property. *)
Record GraphObject : Type := mkObject { visible : bool }.

(** [node.data] as [showLinkLabel] reads it: the category string. *)
Record Node : Type := mkNode { data_category : string }.

(** A [go.Link]: its named parts and the node it comes from. *)
Record Link : Type := mkLink {
  parts : gmap string GraphObject;
  fromNode : Node
}.

(** [link.findObject(name)]: the part of that name, or [null]. *)
Definition findObject (l : Link) (name : string) : option GraphObject :=
  parts l !! name.

(** [showLinkLabel], on the event's subject; the link after the
    assignment to [label.visible]. *)
Definition showLinkLabel (subject : Link) : Link :=
  match findObject subject "LABEL" with
  | Some label =>
      mkLink
        (<["LABEL" :=
            mkObject (String.eqb (data_category (fromNode subject))
                                 "Conditional")]> (parts subject))
        (fromNode subject)
  | None => subject
  end.

(** The link listeners [initGoDiagram] registers, by event name. *)
Definition listeners : gmap string (Link → Link) :=
  <["LinkRelinked" := showLinkLabel]> (<["LinkDrawn" := showLinkLabel]> ∅).

(** Modelled from the spec: the library raising a diagram event on a
    link, which runs the listener registered under the event's name. *)
Definition raiseDiagramEvent (name : string) (subject : Link) : Link :=
  match listeners !! name with
  | Some listener => listener subject
  | None => subject
  end.

(** The named parts of [initGoDiagram]'s link template. *)
Definition linkTemplate_parts : gmap string GraphObject :=
  <["LABEL" := mkObject false]> (<["HIGHLIGHT" := mkObject true]> ∅).

(** The [Start] and [End] templates of [initGoDiagram]. *)
Definition startTemplate : NodeTemplate :=
  mkTemplate "Circle"
    [ makePort "L" Left Left true false;
      makePort "R" Right Right true false;
      makePort "B" Bottom Bottom true false ].

Definition endTemplate : NodeTemplate :=
  mkTemplate "Circle"
    [ makePort "T" Top Top false true;
      makePort "L" Left Left false true;
      makePort "R" Right Right false true ].

End InitGoJs.

(** ** DiagramWrapper.tsx, variant A *)

Definition determineNodeType (text : string) : DropType :=
  if String.eqb text "area" then Branching
  else if String.eqb text "tools" then Start
  else if String.eqb text "happen" then End_
  else Screen.

Definition determineNodeText (text : string) : string :=
  if String.eqb text "area" then "Branching"
  else if String.eqb text "tools" then "Start"
  else if String.eqb text "happen" then "End"
  else "Display Screen".

(** Modelled from the spec: the drag data store of the browser
    ([DataTransfer]), the data held per format. *)
Definition DataTransfer : Type := gmap string string.

(** Modelled from the spec: [DataTransfer.getData], the data of that
    format, or the empty string when there is none. *)
Definition getData (dt : DataTransfer) (format : string) : string :=
  default EmptyString (dt !! format).

(** [getBoundingClientRect()]. *)
Record DOMRect : Type := mkRect {
  left : float;
  top : float;
  rect_width : float;
  rect_height : float
}.

(** [event.target]: a canvas with its pixel size and bounding box, or
    any other element. *)
Inductive EventTarget : Type :=
  | HTMLCanvasElement (can_width can_height : float) (bbox : DOMRect)
  | OtherElement.

Record DragEvent : Type := mkDragEvent {
  dataTransfer : option DataTransfer;
  clientX : float;
  clientY : float;
  target : EventTarget
}.

(** Modelled from the spec: a [go.Diagram], with its current view
    transform (pan and zoom) from viewport to document coordinates and
    its model. *)
Record Diagram : Type := mkDiagram {
  transformViewToDoc : Point → Point;
  model : GraphLinksModel
}.

(** [handleDrop] of variant A.  The first argument is
    [this.diagramElRef.current?.getDiagram()]; the result is the diagram
    after the call.  ([event.preventDefault()] only marks the event.) *)
Definition handleDrop (diagram : option Diagram) (event : DragEvent)
  : option Diagram :=
  let text :=
    match dataTransfer event with
    | Some dt => getData dt "text/plain"
    | None => EmptyString
    end in
  let category := determineNodeType text in
  let nodeText := determineNodeText text in
  let mx := 70%float in
  let my := 70%float in
  match diagram with
  | Some d =>
      let location := transformViewToDoc d (mkPoint mx my) in
      Some (mkDiagram (transformViewToDoc d)
              (addNodeData (model d)
                 (mkNodeData None (Some location) nodeText category)))
  | None => None
  end.

(** The node templates [initDiagram] of variant A adds, by category. *)
Definition nodeTemplateMap : gmap string InitGoJs.NodeTemplate :=
  let makePort := InitGoJs.makePort in
  let t0 := ∅ in
  let t1 :=
    <[DropType_value Screen :=
       InitGoJs.mkTemplate "Rectangle"
         [ makePort "T" InitGoJs.Top InitGoJs.TopSide true true;
           makePort "L" InitGoJs.Left InitGoJs.LeftSide true true;
           makePort "R" InitGoJs.Right InitGoJs.RightSide true true;
           makePort "B" InitGoJs.Bottom InitGoJs.BottomSide true true ]]> t0 in
  let t2 :=
    <[DropType_value Branching :=
       InitGoJs.mkTemplate "Diamond"
         [ makePort "T" InitGoJs.Top InitGoJs.Top true true;
           makePort "L" InitGoJs.Left InitGoJs.Left true true;
           makePort "R" InitGoJs.Right InitGoJs.Right true true ]]> t1 in
  let t3 :=
    <[DropType_value Start :=
       InitGoJs.mkTemplate "Circle"
         [ makePort "L" InitGoJs.Left InitGoJs.Left true false;
           makePort "R" InitGoJs.Right InitGoJs.Right true false;
           makePort "B" InitGoJs.Bottom InitGoJs.Bottom true false ]]> t2 in
  <[DropType_value End_ :=
     InitGoJs.mkTemplate "Circle"
       [ makePort "L" InitGoJs.Left InitGoJs.Left false true;
         makePort "R" InitGoJs.Right InitGoJs.Right false true;
         makePort "T" InitGoJs.Top InitGoJs.Top false true ]]> t3.

(** ** DiagramWrapper.tsx, variant B *)

Module VariantB.

Definition pixelratio : float := 2.5%float.

(** [handleDrop] of variant B: it leaves at once unless the target is a
    canvas, and always inserts a [Screen] node. *)
Definition handleDrop (diagram : option Diagram) (event : DragEvent)
  : option Diagram :=
  match target event with
  | OtherElement => diagram
  | HTMLCanvasElement can_width can_height bbox =>
      let bbw := rect_width bbox in
      let bbw := if PrimFloat.eqb bbw 0 then 0.001%float else bbw in
      let bbh := rect_height bbox in
      let bbh := if PrimFloat.eqb bbh 0 then 0.001%float else bbh in
      let mx :=
        (clientX event - left bbox * (can_width / pixelratio / bbw))%float in
      let my :=
        (clientY event - top bbox * (can_height / pixelratio / bbh))%float in
      match diagram with
      | Some d =>
          let location := transformViewToDoc d (mkPoint mx my) in
          Some (mkDiagram (transformViewToDoc d)
                  (addNodeData (model d)
                     (mkNodeData None (Some location) "Display Screen"
                        Screen)))
      | None => None
      end
  end.

End VariantB.

(** ** Predicates and sample data of the statements *)

(** A model with two nodes and the link between them. *)
Definition model_1_2 : GraphLinksModel :=
  mkModel (<[1 := mkNodeData (Some 1) None "Start" Start]>
             (<[2 := mkNodeData (Some 2) None "End" End_]> ∅))
          (<[-1 := mkLinkData (Some (-1)) 1 2 "R" "L"]> ∅).

(** Node records sit under positive keys, link records under negative
    keys, and each record carries the key it is stored under. *)
Definition keys_in_range (m : GraphLinksModel) : Prop :=
  (∀ k nd, findNodeDataForKey m k = Some nd → 0 < k ∧ key nd = Some k)
  ∧ (∀ k ld, findLinkDataForKey m k = Some ld → k < 0 ∧ lkey ld = Some k).

(** The same diagram, built by three insertions without keys. *)
Definition model_after_edits : GraphLinksModel :=
  addLinkData
    (addNodeData
       (addNodeData empty_model (mkNodeData None None "Start" Start))
       (mkNodeData None None "End" End_))
    (mkLinkData None 1 2 "R" "L").

(** The [text] of [handleDrop]:
    [event.dataTransfer?.getData("text/plain")], or the empty string when
    that is [undefined]. *)
Definition dropped_text (event : DragEvent) : string :=
  match dataTransfer event with
  | Some dt => getData dt "text/plain"
  | None => EmptyString
  end.

(** A drag event brings no plain text: it has no data store, or its
    store holds nothing, or the empty string, for "text/plain". *)
Definition no_plain_text (event : DragEvent) : Prop :=
  dataTransfer event = None
  ∨ ∃ dt, dataTransfer event = Some dt
          ∧ (dt !! "text/plain" = None ∨ dt !! "text/plain" = Some EmptyString).

(** The diagram as it is first shown: no pan, no zoom, no records. *)
Definition fresh_diagram : Diagram := mkDiagram (λ p, p) empty_model.

(** Drag events: one without a data store, one that carries "area", and
    one on a canvas of 250 by 500 pixels shown at 100 by 200. *)
Definition drop_without_data : DragEvent :=
  mkDragEvent None 10 20 OtherElement.

Definition drop_area_at_10_20 : DragEvent :=
  mkDragEvent (Some (<["text/plain" := "area"]> ∅)) 10 20 OtherElement.

Definition canvas_drop : DragEvent :=
  mkDragEvent None 100 100
    (HTMLCanvasElement 250 500 (mkRect 50 20 100 200)).

(** Links built from [initGoDiagram]'s link template, leaving a
    "Branching" node and a "Conditional" node. *)
Definition link_from_branching : InitGoJs.Link :=
  InitGoJs.mkLink InitGoJs.linkTemplate_parts
    (InitGoJs.mkNode (DropType_value Branching)).

Definition link_from_conditional : InitGoJs.Link :=
  InitGoJs.mkLink InitGoJs.linkTemplate_parts (InitGoJs.mkNode "Conditional").

(** A port that links may leave but not enter, and the converse. *)
Definition out_only (p : InitGoJs.Port) : Prop :=
  InitGoJs.fromLinkable p = true ∧ InitGoJs.toLinkable p = false.

Definition in_only (p : InitGoJs.Port) : Prop :=
  InitGoJs.fromLinkable p = false ∧ InitGoJs.toLinkable p = true.

(** ** Further predicates and sample data *)

(** The keys under which the model holds a node record are exactly the
    integers from 1 to [n]. *)
Definition node_keys_upto (m : GraphLinksModel) (n : Z) : Prop :=
  ∀ k, is_Some (findNodeDataForKey m k) ↔ 1 ≤ k ≤ n.

(** The keys under which the model holds a link record are exactly the
    integers from [-n] to -1. *)
Definition link_keys_downto (m : GraphLinksModel) (n : Z) : Prop :=
  ∀ k, is_Some (findLinkDataForKey m k) ↔ - n ≤ k ≤ -1.

(** A model in which a node was given the key -1 by hand. *)
Definition model_with_negative_node : GraphLinksModel :=
  mkModel {[ -1 := mkNodeData (Some (-1)) None "Start" Start ]} ∅.


(** Two drags, of "tools" and of "happen", at different places. *)
Definition drop_tools_at_300_40 : DragEvent :=
  mkDragEvent (Some (<["text/plain" := "tools"]> ∅)) 300 40 OtherElement.

Definition drop_happen_at_5_500 : DragEvent :=
  mkDragEvent (Some (<["text/plain" := "happen"]> ∅)) 5 500 OtherElement.

(** ** initGoJs.ts: the "Modified" listener and the port handlers *)

Module InitGoDiagram.

(** The save button, as far as the listener touches it. *)
Record HTMLButtonElement : Type := mkButton { disabled : bool }.

(** The page: [document.querySelector("#SaveButton")], which is [null]
    when there is no such button, and [document.title]. *)
Record Document : Type := mkDocument {
  saveButton : option HTMLButtonElement;
  title : string
}.

(** The "Modified" listener of [initGoDiagram]; [isModified] is
    [diagram.isModified].  [indexOf] is [String.index], with [None] for
    -1, and [substr(0, idx)] is [String.substring 0 idx]. *)
Definition modifiedListener (isModified : bool) (document : Document)
  : Document :=
  let saveButton :=
    match saveButton document with
    | Some _ => Some (mkButton (negb isModified))
    | None => None
    end in
  let idx := String.index 0 "*" (title document) in
  if isModified then
    match idx with
    | None => mkDocument saveButton (String.append (title document) "*")
    | Some _ => mkDocument saveButton (title document)
    end
  else
    match idx with
    | Some i => mkDocument saveButton (String.substring 0 i (title document))
    | None => mkDocument saveButton (title document)
    end.

(** What the mouse handlers of a port are handed: a shape, which has a
    [fill], or an object of another kind, which has none. *)
Inductive GraphObject : Type :=
  | Shape (ps : InitGoJs.Port)
  | OtherObject.

(** [isPort]: [obj.fill !== undefined]. *)
Definition isPort (obj : GraphObject) : bool :=
  match obj with
  | Shape _ => true
  | OtherObject => false
  end.

Definition set_fill (ps : InitGoJs.Port) (colour : string) : InitGoJs.Port :=
  InitGoJs.mkPort colour (InitGoJs.strokeWidth ps) (InitGoJs.width ps)
    (InitGoJs.height ps) (InitGoJs.alignment ps) (InitGoJs.stretch ps)
    (InitGoJs.portId ps) (InitGoJs.fromSpot ps) (InitGoJs.fromLinkable ps)
    (InitGoJs.toSpot ps) (InitGoJs.toLinkable ps) (InitGoJs.cursor ps).

(** The [mouseEnter] handler [makePort] gives a port; [isReadOnly] is
    [e.diagram.isReadOnly]. *)
Definition mouseEnter (isReadOnly : bool) (port : GraphObject) : GraphObject :=
  if negb isReadOnly && isPort port then
    match port with
    | Shape ps => Shape (set_fill ps "rgba(255,0,255,0.5)")
    | OtherObject => port
    end
  else port.

(** The [mouseLeave] handler [makePort] gives a port. *)
Definition mouseLeave (port : GraphObject) : GraphObject :=
  if isPort port then
    match port with
    | Shape ps => Shape (set_fill ps "transparent")
    | OtherObject => port
    end
  else port.

(** The node templates [initGoDiagram] adds, by category.  The four
    [makePort] calls that follow the default template are statements of
    their own: the ports they make are not part of any template. *)
Definition nodeTemplateMap : gmap string InitGoJs.NodeTemplate :=
  let makePort := InitGoJs.makePort in
  let t0 := ∅ in
  let t1 := <[EmptyString := InitGoJs.mkTemplate "Rectangle" []]> t0 in
  let _ := makePort "T" InitGoJs.Top InitGoJs.TopSide false true in
  let _ := makePort "L" InitGoJs.Left InitGoJs.LeftSide true true in
  let _ := makePort "R" InitGoJs.Right InitGoJs.RightSide true true in
  let _ := makePort "B" InitGoJs.Bottom InitGoJs.BottomSide true false in
  let t2 :=
    <["Conditional" :=
       InitGoJs.mkTemplate "Diamond"
         [ makePort "T" InitGoJs.Top InitGoJs.Top false true;
           makePort "L" InitGoJs.Left InitGoJs.Left true true;
           makePort "R" InitGoJs.Right InitGoJs.Right true true;
           makePort "B" InitGoJs.Bottom InitGoJs.Bottom true false ]]> t1 in
  let t3 := <["Start" := InitGoJs.startTemplate]> t2 in
  let t4 := <["End" := InitGoJs.endTemplate]> t3 in
  <["Comment" := InitGoJs.mkTemplate "File" []]> t4.

End InitGoDiagram.

(** ** DiagramWrapper.tsx: the link template's mouse handlers *)

Module LinkTemplate.

(** A named shape of a link panel. *)
Record Shape : Type := mkShape { stroke : string; strokeWidth : float }.

(** A link built from the template, by the names of its parts; the path
    and the arrowhead have no name and [findObject] cannot reach them. *)
Abbreviation Link := (gmap string Shape).

Definition findObject (link : Link) (name : string) : option Shape :=
  link !! name.

(** The link template of [initDiagram]: its one named part. *)
Definition linkTemplate : Link :=
  {[ "HIGHLIGHT" := mkShape "transparent" 8 ]}.

(** [mouseEnter] of the link template.  [None] stands for the
    [TypeError] of assigning to [stroke] of [null]. *)
Definition mouseEnter (link : Link) : option Link :=
  match findObject link "HIGHLIGHT" with
  | Some shape =>
      Some (<["HIGHLIGHT" :=
               mkShape "rgba(30,144,255,0.2)" (strokeWidth shape)]> link)
  | None => None
  end.

(** [mouseLeave] of the link template. *)
Definition mouseLeave (link : Link) : option Link :=
  match findObject link "HIGHLIGHT" with
  | Some shape =>
      Some (<["HIGHLIGHT" := mkShape "transparent" (strokeWidth shape)]> link)
  | None => None
  end.

End LinkTemplate.

(** ** DiagramWrapper.tsx: mounting and unmounting *)

Module Lifecycle.

(** The functions the component registers: its three handlers, and the
    [onDiagramEvent] function it gets as a prop. *)
Inductive Callback : Type :=
  | HandleDragEnter
  | HandleDragOver
  | HandleDrop
  | PropFunction (id : nat).

#[global] Instance Callback_eq_dec : EqDecision Callback.
Proof. solve_decision. Defined.

(** Modelled from the spec: the listener list of a DOM element; an entry
    is an event type, a function and the capture flag. *)
Abbreviation EventListeners := (list (string * Callback * bool)).

(** Modelled from the spec: [EventTarget.addEventListener], which
    registers a listener unless the same one is registered already. *)
Definition addEventListener
  (ls : EventListeners) (type : string) (listener : Callback) (capture : bool)
  : EventListeners :=
  if decide ((type, listener, capture) ∈ ls) then ls
  else ls ++ [(type, listener, capture)].

(** Modelled from the spec: [EventTarget.removeEventListener] without a
    third argument, which unregisters the non-capturing listener. *)
Definition removeEventListener
  (ls : EventListeners) (type : string) (listener : Callback)
  : EventListeners :=
  filter (λ l, l ≠ (type, listener, false)) ls.

(** Modelled from the spec: a [go.Diagram] as the component sees it when
    it mounts: its [div], which may be [null], and the diagram listeners
    by event name, in the order they were added. *)
Record Diagram : Type := mkDiagram {
  div : option EventListeners;
  diagramListeners : list (string * Callback)
}.

(** Modelled from the spec: [Diagram.addDiagramListener]. *)
Definition addDiagramListener
  (d : Diagram) (name : string) (listener : Callback) : Diagram :=
  mkDiagram (div d) (diagramListeners d ++ [(name, listener)]).

Fixpoint remove_first
  (x : string * Callback) (l : list (string * Callback))
  : list (string * Callback) :=
  match l with
  | [] => []
  | y :: l' => if decide (x = y) then l' else y :: remove_first x l'
  end.

(** Modelled from the spec: [Diagram.removeDiagramListener], which takes
    one registration of the listener away. *)
Definition removeDiagramListener
  (d : Diagram) (name : string) (listener : Callback) : Diagram :=
  mkDiagram (div d) (remove_first (name, listener) (diagramListeners d)).

(** The component: [diagramElRef.current], which is [null] or a
    [ReactDiagram] whose [getDiagram()] is [null] or a diagram, and
    [props.onDiagramEvent]. *)
Record DiagramWrapper : Type := mkWrapper {
  current : option (option Diagram);
  onDiagramEvent : Callback
}.

(** [diagram?.div?.<method>(...)] *)
Definition on_div (f : EventListeners → EventListeners) (d : Diagram)
  : Diagram :=
  match div d with
  | Some ls => mkDiagram (Some (f ls)) (diagramListeners d)
  | None => d
  end.

Definition componentDidMount (w : DiagramWrapper) : DiagramWrapper :=
  match current w with
  | None => w
  | Some None => w
  | Some (Some diagram) =>
      let diagram :=
        on_div (λ ls, addEventListener ls "dragenter" HandleDragEnter false)
          diagram in
      let diagram :=
        on_div (λ ls, addEventListener ls "dragover" HandleDragOver false)
          diagram in
      let diagram :=
        on_div (λ ls, addEventListener ls "drop" HandleDrop false) diagram in
      let diagram :=
        addDiagramListener diagram "ChangedSelection" (onDiagramEvent w) in
      mkWrapper (Some (Some diagram)) (onDiagramEvent w)
  end.

Definition componentWillUnmount (w : DiagramWrapper) : DiagramWrapper :=
  match current w with
  | None => w
  | Some None => w
  | Some (Some diagram) =>
      let diagram :=
        on_div (λ ls, removeEventListener ls "dragenter" HandleDragEnter)
          diagram in
      let diagram :=
        on_div (λ ls, removeEventListener ls "dragover" HandleDragOver)
          diagram in
      let diagram :=
        on_div (λ ls, removeEventListener ls "drop" HandleDrop) diagram in
      let diagram :=
        removeDiagramListener diagram "ChangedSelection" (onDiagramEvent w) in
      mkWrapper (Some (Some diagram)) (onDiagramEvent w)
  end.

(** None of the component's own functions is registered. *)
Definition unregistered (w : DiagramWrapper) (d : Diagram) : Prop :=
  (∀ ls, div d = Some ls →
         (("dragenter", HandleDragEnter, false) ∉ ls)
         ∧ (("dragover", HandleDragOver, false) ∉ ls)
         ∧ (("drop", HandleDrop, false) ∉ ls))
  ∧ (("ChangedSelection", onDiagramEvent w) ∉ diagramListeners d).

End Lifecycle.

(** More sample data: a page with a save button, a drop on a canvas that
    is not laid out, and a component that is about to mount. *)
Definition page_untitled : InitGoDiagram.Document :=
  InitGoDiagram.mkDocument (Some (InitGoDiagram.mkButton true)) "Flowchart".

Definition collapsed_canvas_drop : DragEvent :=
  mkDragEvent None 100 100 (HTMLCanvasElement 250 500 (mkRect 50 20 0 0)).

Definition wrapper_before_mount : Lifecycle.DiagramWrapper :=
  Lifecycle.mkWrapper
    (Some (Some (Lifecycle.mkDiagram
                   (Some [("click", Lifecycle.PropFunction 7, false)])
                   [("Modified", Lifecycle.PropFunction 3)])))
    (Lifecycle.PropFunction 1).

(** ** Key allocation: the two scans *)

Section Scan.

Variable m : GraphLinksModel.

(** The upward scan stops at the first free key at or above its start. *)
Lemma scan_up_spec (k : Z) :
  k ≤ scan_up m k
  ∧ findNodeDataForKey m (scan_up m k) = None
  ∧ ∀ j, k ≤ j < scan_up m k → is_Some (findNodeDataForKey m j).
Proof.
  funelim (scan_up m k).
  - clear Heqcall. destruct H as (Hle & Hfree & Hused).
    split; [lia|]. split; [done|].
    intros j Hj. destruct (decide (j = k)) as [->|Hne]; [eauto|].
    apply Hused. lia.
  - split; [lia|]. split; [done|]. intros j Hj. lia.
Qed.

(** The downward scan stops at the first free key at or below its start. *)
Lemma scan_down_spec (k : Z) :
  scan_down m k ≤ k
  ∧ findLinkDataForKey m (scan_down m k) = None
  ∧ ∀ j, scan_down m k < j ≤ k → is_Some (findLinkDataForKey m j).
Proof.
  funelim (scan_down m k).
  - clear Heqcall. destruct H as (Hle & Hfree & Hused).
    split; [lia|]. split; [done|].
    intros j Hj. destruct (decide (j = k)) as [->|Hne]; [eauto|].
    apply Hused. lia.
  - split; [lia|]. split; [done|]. intros j Hj. lia.
Qed.

Lemma scan_up_free (k : Z) :
  findNodeDataForKey m k = None → scan_up m k = k.
Proof.
  intros Hk. destruct (scan_up_spec k) as (Hle & _ & Hused).
  destruct (decide (scan_up m k = k)) as [|Hne]; [done|].
  destruct (Hused k) as [nd Hnd]; [lia|congruence].
Qed.

Lemma scan_down_free (k : Z) :
  findLinkDataForKey m k = None → scan_down m k = k.
Proof.
  intros Hk. destruct (scan_down_spec k) as (Hle & _ & Hused).
  destruct (decide (scan_down m k = k)) as [|Hne]; [done|].
  destruct (Hused k) as [ld Hld]; [lia|congruence].
Qed.

End Scan.

(** ** Key allocation: the claims *)

(** C1.  For a node record that comes without a key,
    [makeUniqueKeyFunction] returns an integer greater than 0 under which
    the model holds no node record, and every positive integer below it
    is in use: it is the first free key counting up from 1. *)
Theorem makeUniqueKeyFunction_first_free
  (m : GraphLinksModel) (data : NodeData) :
  key data = None →
  0 < fst (makeUniqueKeyFunction m data)
  ∧ findNodeDataForKey m (fst (makeUniqueKeyFunction m data)) = None
  ∧ ∀ j, 1 ≤ j < fst (makeUniqueKeyFunction m data) →
         is_Some (findNodeDataForKey m j).
Proof.
  intros Hkey. unfold makeUniqueKeyFunction. rewrite Hkey. simpl.
  destruct (scan_up_spec m 1) as (Hle & Hfree & Hused).
  split; [lia|]. split; [done|]. exact Hused.
Qed.

Lemma makeUniqueKeyFunction_first_free_witness :
  0 < fst (makeUniqueKeyFunction model_1_2
             (mkNodeData None None "Display Screen" Screen))
  ∧ findNodeDataForKey model_1_2
      (fst (makeUniqueKeyFunction model_1_2
              (mkNodeData None None "Display Screen" Screen))) = None
  ∧ ∀ j, 1 ≤ j < fst (makeUniqueKeyFunction model_1_2
                        (mkNodeData None None "Display Screen" Screen)) →
         is_Some (findNodeDataForKey model_1_2 j).
Proof.
  apply (makeUniqueKeyFunction_first_free model_1_2
           (mkNodeData None None "Display Screen" Screen)).
  reflexivity.
Defined.

(** C2.  For a link record that comes without a key,
    [makeUniqueLinkKeyFunction] returns a negative integer under which
    the model holds no link record, and every negative integer of smaller
    magnitude is in use: it is the first free key counting down from -1. *)
Theorem makeUniqueLinkKeyFunction_first_free
  (m : GraphLinksModel) (data : LinkData) :
  lkey data = None →
  fst (makeUniqueLinkKeyFunction m data) < 0
  ∧ findLinkDataForKey m (fst (makeUniqueLinkKeyFunction m data)) = None
  ∧ ∀ j, fst (makeUniqueLinkKeyFunction m data) < j ≤ -1 →
         is_Some (findLinkDataForKey m j).
Proof.
  intros Hkey. unfold makeUniqueLinkKeyFunction. rewrite Hkey. simpl.
  destruct (scan_down_spec m (-1)) as (Hle & Hfree & Hused).
  split; [lia|]. split; [done|]. exact Hused.
Qed.

Lemma makeUniqueLinkKeyFunction_first_free_witness :
  fst (makeUniqueLinkKeyFunction model_1_2
         (mkLinkData None 2 1 "B" "T")) < 0
  ∧ findLinkDataForKey model_1_2
      (fst (makeUniqueLinkKeyFunction model_1_2
              (mkLinkData None 2 1 "B" "T"))) = None
  ∧ ∀ j, fst (makeUniqueLinkKeyFunction model_1_2
                (mkLinkData None 2 1 "B" "T")) < j ≤ -1 →
         is_Some (findLinkDataForKey model_1_2 j).
Proof.
  apply (makeUniqueLinkKeyFunction_first_free model_1_2
           (mkLinkData None 2 1 "B" "T")).
  reflexivity.
Defined.

Example makeUniqueKeyFunction_model_1_2 :
  makeUniqueKeyFunction model_1_2 (mkNodeData None None "Display Screen" Screen)
  = (3, mkNodeData (Some 3) None "Display Screen" Screen).
Proof. vm_compute. reflexivity. Qed.

Example makeUniqueLinkKeyFunction_model_1_2 :
  makeUniqueLinkKeyFunction model_1_2 (mkLinkData None 2 1 "B" "T")
  = (-2, mkLinkData (Some (-2)) 2 1 "B" "T").
Proof. vm_compute. reflexivity. Qed.

(** C10.  Either function stores the key it returns in the record: after
    a call the record's key is the returned key.  A record that brings a
    truthy (that is, nonzero) key under which the model holds no record
    of its kind gets that key back, and is left as it was. *)
Theorem allocation_writes_back_and_keeps_free_key
  (m : GraphLinksModel) (nd0 nd : NodeData) (ld0 ld : LinkData) (k l : Z) :
  key nd = Some k → k ≠ 0 → findNodeDataForKey m k = None →
  lkey ld = Some l → l ≠ 0 → findLinkDataForKey m l = None →
  key (snd (makeUniqueKeyFunction m nd0))
    = Some (fst (makeUniqueKeyFunction m nd0))
  ∧ lkey (snd (makeUniqueLinkKeyFunction m ld0))
    = Some (fst (makeUniqueLinkKeyFunction m ld0))
  ∧ makeUniqueKeyFunction m nd = (k, nd)
  ∧ makeUniqueLinkKeyFunction m ld = (l, ld).
Proof.
  intros Hk Hk0 Hfree Hl Hl0 Hlfree.
  split; [reflexivity|]. split; [reflexivity|].
  unfold makeUniqueKeyFunction, makeUniqueLinkKeyFunction, key_or.
  rewrite Hk, Hl.
  destruct (decide (k = 0)) as [|_]; [done|].
  destruct (decide (l = 0)) as [|_]; [done|].
  rewrite (scan_up_free m k Hfree), (scan_down_free m l Hlfree).
  split.
  - destruct nd as [? ? ? ?]. simpl in Hk. subst. reflexivity.
  - destruct ld as [? ? ? ? ?]. simpl in Hl. subst. reflexivity.
Qed.

Lemma allocation_writes_back_and_keeps_free_key_witness :
  key (snd (makeUniqueKeyFunction model_1_2
              (mkNodeData None None "Branching" Branching)))
    = Some (fst (makeUniqueKeyFunction model_1_2
                   (mkNodeData None None "Branching" Branching)))
  ∧ lkey (snd (makeUniqueLinkKeyFunction model_1_2
                 (mkLinkData None 1 2 "B" "T")))
    = Some (fst (makeUniqueLinkKeyFunction model_1_2
                   (mkLinkData None 1 2 "B" "T")))
  ∧ makeUniqueKeyFunction model_1_2
      (mkNodeData (Some 5) None "Display Screen" Screen)
    = (5, mkNodeData (Some 5) None "Display Screen" Screen)
  ∧ makeUniqueLinkKeyFunction model_1_2 (mkLinkData (Some (-7)) 2 1 "L" "R")
    = (-7, mkLinkData (Some (-7)) 2 1 "L" "R").
Proof.
  apply (allocation_writes_back_and_keeps_free_key model_1_2
           (mkNodeData None None "Branching" Branching)
           (mkNodeData (Some 5) None "Display Screen" Screen)
           (mkLinkData None 1 2 "B" "T")
           (mkLinkData (Some (-7)) 2 1 "L" "R") 5 (-7));
    first [reflexivity | lia].
Defined.

(** ** The key ranges of nodes and links *)

Lemma keys_in_range_empty : keys_in_range empty_model.
Proof.
  split; intros k r; unfold findNodeDataForKey, findLinkDataForKey; simpl;
    rewrite lookup_empty; done.
Qed.

Lemma addNodeData_keyless (m : GraphLinksModel) (data : NodeData) :
  key data = None →
  addNodeData m data
  = mkModel (<[scan_up m 1 := set_key data (scan_up m 1)]> (nodes m))
            (links m).
Proof.
  intros Hkey. unfold addNodeData, makeUniqueKeyFunction.
  rewrite Hkey. reflexivity.
Qed.

Lemma addLinkData_keyless (m : GraphLinksModel) (data : LinkData) :
  lkey data = None →
  addLinkData m data
  = mkModel (nodes m)
            (<[scan_down m (-1) := set_lkey data (scan_down m (-1))]> (links m)).
Proof.
  intros Hkey. unfold addLinkData, makeUniqueLinkKeyFunction.
  rewrite Hkey. reflexivity.
Qed.

Lemma addNodeData_taken
  (m : GraphLinksModel) (data : NodeData) (k : Z) (nd : NodeData) :
  key data = Some k → findNodeDataForKey m k = Some nd → k ≠ 0 →
  addNodeData m data
  = mkModel (<[scan_up m k := set_key data (scan_up m k)]> (nodes m))
            (links m).
Proof.
  intros Hkey Hin Hk. unfold addNodeData, makeUniqueKeyFunction, key_or.
  rewrite Hkey, Hin. destruct (decide (k = 0)); [done|reflexivity].
Qed.

Lemma addLinkData_taken
  (m : GraphLinksModel) (data : LinkData) (k : Z) (ld : LinkData) :
  lkey data = Some k → findLinkDataForKey m k = Some ld → k ≠ 0 →
  addLinkData m data
  = mkModel (nodes m)
            (<[scan_down m k := set_lkey data (scan_down m k)]> (links m)).
Proof.
  intros Hkey Hin Hk. unfold addLinkData, makeUniqueLinkKeyFunction, key_or.
  rewrite Hkey, Hin. destruct (decide (k = 0)); [done|reflexivity].
Qed.

Lemma keys_in_range_insert_node
  (m : GraphLinksModel) (data : NodeData) (k0 : Z) (ls : gmap Z LinkData) :
  0 < k0 →
  (∀ k nd, findNodeDataForKey m k = Some nd → 0 < k ∧ key nd = Some k) →
  ∀ k nd,
    findNodeDataForKey (mkModel (<[k0 := set_key data k0]> (nodes m)) ls) k
    = Some nd →
    0 < k ∧ key nd = Some k.
Proof.
  intros Hpos Hnodes k nd. unfold findNodeDataForKey. simpl.
  destruct (decide (k0 = k)) as [<-|Hne].
  - rewrite lookup_insert_eq. intros [= <-]. split; [lia|reflexivity].
  - rewrite lookup_insert_ne by done. apply Hnodes.
Qed.

Lemma keys_in_range_insert_link
  (m : GraphLinksModel) (data : LinkData) (k0 : Z) (ns : gmap Z NodeData) :
  k0 < 0 →
  (∀ k ld, findLinkDataForKey m k = Some ld → k < 0 ∧ lkey ld = Some k) →
  ∀ k ld,
    findLinkDataForKey (mkModel ns (<[k0 := set_lkey data k0]> (links m))) k
    = Some ld →
    k < 0 ∧ lkey ld = Some k.
Proof.
  intros Hneg Hlinks k ld. unfold findLinkDataForKey. simpl.
  destruct (decide (k0 = k)) as [<-|Hne].
  - rewrite lookup_insert_eq. intros [= <-]. split; [lia|reflexivity].
  - rewrite lookup_insert_ne by done. apply Hlinks.
Qed.

Lemma keys_in_range_edit (m m' : GraphLinksModel) :
  edit m m' → keys_in_range m → keys_in_range m'.
Proof.
  intros Hedit [Hnodes Hlinks].
  destruct Hedit as [m data Hkey|m data Hkey
                    |m data k0 Hkey [nd0 Hin]|m data k0 Hkey [ld0 Hin]
                    |m data|m data].
  - rewrite (addNodeData_keyless m data Hkey). split; [|exact Hlinks].
    apply keys_in_range_insert_node; [|exact Hnodes].
    destruct (scan_up_spec m 1) as (Hle & _). lia.
  - rewrite (addLinkData_keyless m data Hkey). split; [exact Hnodes|].
    apply keys_in_range_insert_link; [|exact Hlinks].
    destruct (scan_down_spec m (-1)) as (Hle & _). lia.
  - destruct (Hnodes k0 nd0 Hin) as [Hpos _].
    rewrite (addNodeData_taken m data k0 nd0 Hkey Hin) by lia.
    split; [|exact Hlinks].
    apply keys_in_range_insert_node; [|exact Hnodes].
    destruct (scan_up_spec m k0) as (Hle & _). lia.
  - destruct (Hlinks k0 ld0 Hin) as [Hneg _].
    rewrite (addLinkData_taken m data k0 ld0 Hkey Hin) by lia.
    split; [exact Hnodes|].
    apply keys_in_range_insert_link; [|exact Hlinks].
    destruct (scan_down_spec m k0) as (Hle & _). lia.
  - unfold removeNodeData. destruct (key data) as [k0|]; [|by split].
    split; [|exact Hlinks].
    intros k nd. unfold findNodeDataForKey. simpl.
    intros [_ Hin]%lookup_delete_Some. by apply Hnodes.
  - unfold removeLinkData. destruct (lkey data) as [k0|]; [|by split].
    split; [exact Hnodes|].
    intros k ld. unfold findLinkDataForKey. simpl.
    intros [_ Hin]%lookup_delete_Some. by apply Hlinks.
Qed.

(** C3.  In every model state reached from the empty model by insertions
    that leave the key to the two key functions (and by deletions), every
    node key is positive and every link key is negative; the two key sets
    are disjoint, and no key names both a node and a link. *)
Theorem reachable_keys_disjoint (m : GraphLinksModel) :
  reachable m →
  (∀ k nd, findNodeDataForKey m k = Some nd → 0 < k ∧ key nd = Some k)
  ∧ (∀ k ld, findLinkDataForKey m k = Some ld → k < 0 ∧ lkey ld = Some k)
  ∧ dom (nodes m) ## dom (links m)
  ∧ ∀ k, ¬ (is_Some (findNodeDataForKey m k)
            ∧ is_Some (findLinkDataForKey m k)).
Proof.
  intros Hreach.
  assert (Hinv : keys_in_range m).
  { revert m Hreach. apply (rtc_ind_r (λ m, keys_in_range m)).
    - exact keys_in_range_empty.
    - intros m1 m2 _ Hedit IH. exact (keys_in_range_edit m1 m2 Hedit IH). }
  destruct Hinv as [Hnodes Hlinks].
  assert (Hboth : ∀ k, ¬ (is_Some (findNodeDataForKey m k)
                          ∧ is_Some (findLinkDataForKey m k))).
  { intros k [[nd Hnd] [ld Hld]].
    destruct (Hnodes k nd Hnd) as [Hpos _].
    destruct (Hlinks k ld Hld) as [Hneg _]. lia. }
  split; [exact Hnodes|]. split; [exact Hlinks|]. split; [|exact Hboth].
  intros k Hn%elem_of_dom Hl%elem_of_dom. exact (Hboth k (conj Hn Hl)).
Qed.

Lemma model_after_edits_reachable : reachable model_after_edits.
Proof.
  unfold reachable, model_after_edits.
  set (start := mkNodeData None None "Start" Start).
  set (stop := mkNodeData None None "End" End_).
  apply (rtc_r _ (addNodeData (addNodeData empty_model start) stop));
    [apply (rtc_r _ (addNodeData empty_model start)); [apply rtc_once|]|].
  - apply edit_add_node. reflexivity.
  - apply edit_add_node. reflexivity.
  - apply edit_add_link. reflexivity.
Qed.

Lemma reachable_keys_disjoint_witness :
  reachable model_after_edits
  ∧ dom (nodes model_after_edits) ## dom (links model_after_edits).
Proof.
  split; [exact model_after_edits_reachable|].
  apply (reachable_keys_disjoint model_after_edits
           model_after_edits_reachable).
Defined.

Example model_after_edits_keys :
  dom (nodes model_after_edits) = {[1; 2]}
  ∧ dom (links model_after_edits) = {[-1]}.
Proof. split; vm_compute; reflexivity. Qed.

(** C7.  From the empty model, two insertions of records without a key
    are given the keys 1 and then 2; once the node with key 1 is deleted,
    the next insertion without a key is given key 1 again. *)
Theorem freed_key_is_reused
  (l1 l2 l3 : option Point) (t1 t2 t3 : string) (c1 c2 c3 : DropType) :
  let m1 := addNodeData empty_model (mkNodeData None l1 t1 c1) in
  let m2 := addNodeData m1 (mkNodeData None l2 t2 c2) in
  let m3 := removeNodeData m2 (mkNodeData (Some 1) l1 t1 c1) in
  let m4 := addNodeData m3 (mkNodeData None l3 t3 c3) in
  fst (makeUniqueKeyFunction empty_model (mkNodeData None l1 t1 c1)) = 1
  ∧ fst (makeUniqueKeyFunction m1 (mkNodeData None l2 t2 c2)) = 2
  ∧ findNodeDataForKey m2 1 = Some (mkNodeData (Some 1) l1 t1 c1)
  ∧ findNodeDataForKey m2 2 = Some (mkNodeData (Some 2) l2 t2 c2)
  ∧ findNodeDataForKey m3 1 = None
  ∧ fst (makeUniqueKeyFunction m3 (mkNodeData None l3 t3 c3)) = 1
  ∧ findNodeDataForKey m4 1 = Some (mkNodeData (Some 1) l3 t3 c3)
  ∧ findNodeDataForKey m4 2 = Some (mkNodeData (Some 2) l2 t2 c2).
Proof. repeat split; vm_compute; reflexivity. Qed.

(** ** Drop handling *)

(** What a drop on a mounted diagram does in variant A: one record,
    stored under the first free positive key. *)
Lemma handleDrop_inserts (d : Diagram) (event : DragEvent) :
  handleDrop (Some d) event
  = Some (mkDiagram (transformViewToDoc d)
            (mkModel
               (<[scan_up (model d) 1 :=
                   mkNodeData (Some (scan_up (model d) 1))
                     (Some (transformViewToDoc d (mkPoint 70 70)))
                     (determineNodeText (dropped_text event))
                     (determineNodeType (dropped_text event))]>
                  (nodes (model d)))
               (links (model d)))).
Proof.
  unfold handleDrop, dropped_text.
  rewrite addNodeData_keyless by reflexivity. reflexivity.
Qed.

(** C4.  The category and the label of the node a drop inserts follow the
    dropped text exactly: "area" gives Branching and "Branching", "tools"
    gives Start and "Start", "happen" gives End and "End", and any other
    string, compared case-sensitively, gives Screen and "Display Screen". *)
Theorem drop_mapping_exact :
  (determineNodeType "area" = Branching
   ∧ determineNodeText "area" = "Branching")
  ∧ (determineNodeType "tools" = Start
     ∧ determineNodeText "tools" = "Start")
  ∧ (determineNodeType "happen" = End_
     ∧ determineNodeText "happen" = "End")
  ∧ (∀ text : string,
       text ≠ "area" → text ≠ "tools" → text ≠ "happen" →
       determineNodeType text = Screen
       ∧ determineNodeText text = "Display Screen")
  ∧ (∀ (d : Diagram) (event : DragEvent),
       ∃ d' nd,
         handleDrop (Some d) event = Some d'
         ∧ findNodeDataForKey (model d) (scan_up (model d) 1) = None
         ∧ findNodeDataForKey (model d') (scan_up (model d) 1) = Some nd
         ∧ category nd = determineNodeType (dropped_text event)
         ∧ text nd = determineNodeText (dropped_text event)).
Proof.
  split; [by split|]. split; [by split|]. split; [by split|]. split.
  - intros text Harea Htools Hhappen.
    unfold determineNodeType, determineNodeText.
    apply String.eqb_neq in Harea, Htools, Hhappen.
    rewrite Harea, Htools, Hhappen. by split.
  - intros d event. rewrite handleDrop_inserts.
    eexists _, _. split; [reflexivity|].
    split; [apply scan_up_spec|].
    unfold findNodeDataForKey. simpl. rewrite lookup_insert_eq.
    split; [reflexivity|]. by split.
Qed.

Lemma drop_mapping_exact_witness :
  determineNodeType "Area" = Screen
  ∧ determineNodeText "Area" = "Display Screen".
Proof.
  destruct drop_mapping_exact as (_ & _ & _ & Hother & _).
  apply (Hother "Area"); discriminate.
Defined.

(** C8.  A drop whose plain-text payload is empty or absent is handled
    like any other: the text is the empty string, and a mounted diagram
    gets a node of category Screen with the label "Display Screen" under
    the first free positive key.  (Without a diagram the handler does
    nothing.) *)
Theorem empty_payload_drops_screen (d : Diagram) (event : DragEvent) :
  no_plain_text event →
  dropped_text event = EmptyString
  ∧ findNodeDataForKey (model d) (scan_up (model d) 1) = None
  ∧ handleDrop (Some d) event
    = Some (mkDiagram (transformViewToDoc d)
              (mkModel
                 (<[scan_up (model d) 1 :=
                     mkNodeData (Some (scan_up (model d) 1))
                       (Some (transformViewToDoc d (mkPoint 70 70)))
                       "Display Screen" Screen]> (nodes (model d)))
                 (links (model d))))
  ∧ handleDrop None event = None.
Proof.
  intros Hnone.
  assert (Htext : dropped_text event = EmptyString).
  { unfold dropped_text, getData.
    destruct Hnone as [->|(dt & -> & [->| ->])]; reflexivity. }
  split; [exact Htext|]. split; [apply scan_up_spec|].
  split; [|reflexivity].
  rewrite handleDrop_inserts, Htext. reflexivity.
Qed.

Lemma empty_payload_drops_screen_witness :
  no_plain_text drop_without_data
  ∧ handleDrop (Some fresh_diagram) drop_without_data
    = Some (mkDiagram (transformViewToDoc fresh_diagram)
              (mkModel
                 (<[scan_up (model fresh_diagram) 1 :=
                     mkNodeData (Some (scan_up (model fresh_diagram) 1))
                       (Some (transformViewToDoc fresh_diagram
                                (mkPoint 70 70)))
                       "Display Screen" Screen]>
                    (nodes (model fresh_diagram)))
                 (links (model fresh_diagram)))).
Proof.
  assert (Hnone : no_plain_text drop_without_data) by (left; reflexivity).
  split; [exact Hnone|].
  apply (empty_payload_drops_screen fresh_diagram drop_without_data Hnone).
Defined.

(** ** Where a dropped node is placed *)

(** C5, as stated, fails: with no pan and no zoom, a drop at the client
    coordinates (10, 20) inserts a node located at (70, 70). *)
Lemma handleDrop_location_not_pointer :
  ∃ d' nd,
    handleDrop (Some fresh_diagram) drop_area_at_10_20 = Some d'
    ∧ findNodeDataForKey (model fresh_diagram) 1 = None
    ∧ findNodeDataForKey (model d') 1 = Some nd
    ∧ location nd = Some (mkPoint 70 70)
    ∧ location nd
      ≠ Some (transformViewToDoc fresh_diagram
                (mkPoint (clientX drop_area_at_10_20)
                         (clientY drop_area_at_10_20))).
Proof.
  eexists _, _. split; [vm_compute; reflexivity|].
  split; [reflexivity|]. split; [vm_compute; reflexivity|].
  split; [reflexivity|].
  intros Heq.
  pose proof
    (f_equal
       (λ o : option Point,
          match o with
          | Some p => PrimFloat.eqb (px p) 70
          | None => false
          end) Heq) as Hpx.
  vm_compute in Hpx. discriminate Hpx.
Qed.

(** C5, amended.  On a mounted diagram the drop handler of variant A
    inserts a node whose location is the view transform applied to the
    fixed view point (70, 70), whatever the client coordinates of the
    event.  The handler of variant B, when the target of the drop is a
    canvas, inserts a node whose location is the view transform applied
    to the client coordinates less the scaled offset of the canvas (its
    bounding box's left and top times the ratio of the canvas size, over
    the pixel ratio 2.5, to the box size, a size of 0 counting as 0.001);
    on any other target it inserts nothing. *)
Theorem handleDrop_location (d : Diagram) (event : DragEvent) :
  (∃ d' nd,
     handleDrop (Some d) event = Some d'
     ∧ findNodeDataForKey (model d) (scan_up (model d) 1) = None
     ∧ findNodeDataForKey (model d') (scan_up (model d) 1) = Some nd
     ∧ location nd = Some (transformViewToDoc d (mkPoint 70 70)))
  ∧ match target event with
    | HTMLCanvasElement can_width can_height bbox =>
        let bbw :=
          if PrimFloat.eqb (rect_width bbox) 0 then 0.001%float
          else rect_width bbox in
        let bbh :=
          if PrimFloat.eqb (rect_height bbox) 0 then 0.001%float
          else rect_height bbox in
        ∃ d' nd,
          VariantB.handleDrop (Some d) event = Some d'
          ∧ findNodeDataForKey (model d) (scan_up (model d) 1) = None
          ∧ findNodeDataForKey (model d') (scan_up (model d) 1) = Some nd
          ∧ location nd
            = Some (transformViewToDoc d
                      (mkPoint
                         (clientX event
                          - left bbox * (can_width / 2.5 / bbw))%float
                         (clientY event
                          - top bbox * (can_height / 2.5 / bbh))%float))
    | OtherElement => VariantB.handleDrop (Some d) event = Some d
    end.
Proof.
  split.
  - rewrite handleDrop_inserts. eexists _, _. split; [reflexivity|].
    split; [apply scan_up_spec|].
    unfold findNodeDataForKey. simpl. rewrite lookup_insert_eq.
    split; reflexivity.
  - unfold VariantB.handleDrop.
    destruct (target event) as [can_width can_height bbox|]; [|reflexivity].
    simpl. rewrite addNodeData_keyless by reflexivity.
    eexists _, _. split; [reflexivity|].
    split; [apply scan_up_spec|].
    unfold findNodeDataForKey. simpl. rewrite lookup_insert_eq.
    split; reflexivity.
Qed.

Example handleDrop_B_canvas_drop :
  VariantB.handleDrop (Some fresh_diagram) canvas_drop
  = Some (mkDiagram (λ p, p)
            (mkModel
               {[ 1 := mkNodeData (Some 1) (Some (mkPoint 50 80))
                         "Display Screen" Screen ]} ∅)).
Proof. vm_compute. reflexivity. Qed.

(** ** Link labels *)

(** C6, as stated, fails: a link drawn from a node of category
    "Branching" gets its label hidden. *)
Lemma showLinkLabel_hides_for_Branching :
  (InitGoJs.data_category (InitGoJs.fromNode link_from_branching)
     = "Conditional"
   ∨ InitGoJs.data_category (InitGoJs.fromNode link_from_branching)
     = "Branching")
  ∧ InitGoJs.findObject
      (InitGoJs.raiseDiagramEvent "LinkDrawn" link_from_branching) "LABEL"
    = Some (InitGoJs.mkObject false)
  ∧ InitGoJs.findObject
      (InitGoJs.raiseDiagramEvent "LinkRelinked" link_from_branching) "LABEL"
    = Some (InitGoJs.mkObject false).
Proof.
  split; [right; reflexivity|]. split; vm_compute; reflexivity.
Qed.

(** C6, amended.  On a link-drawn or link-relinked event, a link that
    has a label part gets it set visible if and only if the category of
    the link's source node, as it is at the event, is exactly
    "Conditional"; for every other source category, "Branching" among
    them, the label is set hidden.  Nothing else of the link changes, and
    a link without a label part is left as it is. *)
Theorem showLinkLabel_visible_iff_Conditional
  (name : string) (l : InitGoJs.Link) :
  name = "LinkDrawn" ∨ name = "LinkRelinked" →
  InitGoJs.fromNode (InitGoJs.raiseDiagramEvent name l) = InitGoJs.fromNode l
  ∧ (∀ other, other ≠ "LABEL" →
       InitGoJs.findObject (InitGoJs.raiseDiagramEvent name l) other
       = InitGoJs.findObject l other)
  ∧ match InitGoJs.findObject l "LABEL" with
    | Some _ =>
        ∃ label,
          InitGoJs.findObject (InitGoJs.raiseDiagramEvent name l) "LABEL"
          = Some label
          ∧ (InitGoJs.visible label = true
             ↔ InitGoJs.data_category (InitGoJs.fromNode l) = "Conditional")
    | None => InitGoJs.raiseDiagramEvent name l = l
    end.
Proof.
  intros Hname.
  assert (Hraise : InitGoJs.raiseDiagramEvent name l = InitGoJs.showLinkLabel l).
  { destruct Hname as [-> | ->]; reflexivity. }
  rewrite Hraise. unfold InitGoJs.showLinkLabel.
  destruct (InitGoJs.findObject l "LABEL") as [label|] eqn:Hlabel.
  - split; [reflexivity|]. split.
    + intros other Hother. unfold InitGoJs.findObject. simpl.
      by rewrite lookup_insert_ne.
    + eexists. unfold InitGoJs.findObject at 1. simpl.
      rewrite lookup_insert_eq. split; [reflexivity|]. simpl.
      apply String.eqb_eq.
  - split; [reflexivity|]. split; [|reflexivity]. intros; reflexivity.
Qed.

Lemma showLinkLabel_visible_iff_Conditional_witness :
  InitGoJs.findObject
    (InitGoJs.raiseDiagramEvent "LinkRelinked" link_from_conditional) "HIGHLIGHT"
  = InitGoJs.findObject link_from_conditional "HIGHLIGHT".
Proof.
  destruct (showLinkLabel_visible_iff_Conditional "LinkRelinked"
              link_from_conditional) as (_ & Hother & _).
  - right. reflexivity.
  - apply Hother. discriminate.
Defined.

Example showLinkLabel_Conditional_shown :
  InitGoJs.findObject
    (InitGoJs.raiseDiagramEvent "LinkRelinked" link_from_conditional) "LABEL"
  = Some (InitGoJs.mkObject true).
Proof. vm_compute. reflexivity. Qed.

(** ** Ports *)

(** C9.  The Start template has the ports L, R and B, each of which
    allows outgoing and forbids incoming links; the End template has the
    ports L, R and T, each of which forbids outgoing and allows incoming
    links.  The Start and End templates of [initGoDiagram] agree. *)
Theorem start_end_ports :
  (∃ t, nodeTemplateMap !! DropType_value Start = Some t
        ∧ map InitGoJs.portId (InitGoJs.ports t) = ["L"; "R"; "B"]
        ∧ Forall out_only (InitGoJs.ports t))
  ∧ (∃ t, nodeTemplateMap !! DropType_value End_ = Some t
          ∧ map InitGoJs.portId (InitGoJs.ports t) = ["L"; "R"; "T"]
          ∧ Forall in_only (InitGoJs.ports t))
  ∧ Forall out_only (InitGoJs.ports InitGoJs.startTemplate)
  ∧ Forall in_only (InitGoJs.ports InitGoJs.endTemplate).
Proof.
  split; [|split; [|split]].
  - eexists. split; [vm_compute; reflexivity|].
    split; [reflexivity|]. repeat constructor.
  - eexists. split; [vm_compute; reflexivity|].
    split; [reflexivity|]. repeat constructor.
  - repeat constructor.
  - repeat constructor.
Qed.

(** ** Key allocation for any record *)

Lemma scan_up_unique (m : GraphLinksModel) (k r : Z) :
  k ≤ r →
  findNodeDataForKey m r = None →
  (∀ j, k ≤ j < r → is_Some (findNodeDataForKey m j)) →
  scan_up m k = r.
Proof.
  intros Hle Hfree Hused.
  destruct (scan_up_spec m k) as (Hle' & Hfree' & Hused').
  destruct (Z.lt_trichotomy (scan_up m k) r) as [Hlt|[Heq|Hgt]]; [|done|].
  - destruct (Hused (scan_up m k)) as [nd Hnd]; [lia|congruence].
  - destruct (Hused' r) as [nd Hnd]; [lia|congruence].
Qed.

Lemma scan_down_unique (m : GraphLinksModel) (k r : Z) :
  r ≤ k →
  findLinkDataForKey m r = None →
  (∀ j, r < j ≤ k → is_Some (findLinkDataForKey m j)) →
  scan_down m k = r.
Proof.
  intros Hle Hfree Hused.
  destruct (scan_down_spec m k) as (Hle' & Hfree' & Hused').
  destruct (Z.lt_trichotomy (scan_down m k) r) as [Hlt|[Heq|Hgt]]; [|done|].
  - destruct (Hused' r) as [ld Hld]; [lia|congruence].
  - destruct (Hused (scan_down m k)) as [ld Hld]; [lia|congruence].
Qed.







(** The sign is not kept for a node record that brings a negative key
    which is taken: the scan then runs upwards through 0. *)
Example makeUniqueKeyFunction_returns_zero :
  fst (makeUniqueKeyFunction model_with_negative_node
         (mkNodeData (Some (-1)) None "End" End_)) = 0.
Proof. vm_compute. reflexivity. Qed.

(** X4.  Allocation is idempotent: unless the key returned is 0, a second
    call on the record the first call left, in the same model, returns
    the same key and leaves the record as it is. *)
Theorem allocation_idempotent
  (m : GraphLinksModel) (nd : NodeData) (ld : LinkData) :
  fst (makeUniqueKeyFunction m nd) ≠ 0 →
  fst (makeUniqueLinkKeyFunction m ld) ≠ 0 →
  makeUniqueKeyFunction m (snd (makeUniqueKeyFunction m nd))
  = makeUniqueKeyFunction m nd
  ∧ makeUniqueLinkKeyFunction m (snd (makeUniqueLinkKeyFunction m ld))
    = makeUniqueLinkKeyFunction m ld.
Proof.
  unfold makeUniqueKeyFunction, makeUniqueLinkKeyFunction. simpl.
  set (k := scan_up m (key_or (key nd) 1)).
  set (l := scan_down m (key_or (lkey ld) (-1))).
  intros Hk Hl.
  destruct (decide (k = 0)) as [|_]; [done|].
  destruct (decide (l = 0)) as [|_]; [done|].
  assert (Hkfree : findNodeDataForKey m k = None) by apply scan_up_spec.
  assert (Hlfree : findLinkDataForKey m l = None) by apply scan_down_spec.
  rewrite (scan_up_free m k Hkfree), (scan_down_free m l Hlfree).
  split; reflexivity.
Qed.

Lemma allocation_idempotent_witness :
  makeUniqueKeyFunction model_1_2
    (snd (makeUniqueKeyFunction model_1_2
            (mkNodeData (Some 2) None "End" End_)))
  = makeUniqueKeyFunction model_1_2 (mkNodeData (Some 2) None "End" End_)
  ∧ makeUniqueLinkKeyFunction model_1_2
      (snd (makeUniqueLinkKeyFunction model_1_2
              (mkLinkData None 2 1 "B" "T")))
    = makeUniqueLinkKeyFunction model_1_2 (mkLinkData None 2 1 "B" "T").
Proof.
  apply (allocation_idempotent model_1_2
           (mkNodeData (Some 2) None "End" End_)
           (mkLinkData None 2 1 "B" "T")); vm_compute; discriminate.
Defined.

(** Where the key returned is 0 a second call does not return it again. *)
Example allocation_not_idempotent_at_zero :
  fst (makeUniqueKeyFunction model_with_negative_node
         (snd (makeUniqueKeyFunction model_with_negative_node
                 (mkNodeData (Some (-1)) None "End" End_)))) = 1.
Proof. vm_compute. reflexivity. Qed.

(** ** Insertion and deletion *)





Lemma node_keys_upto_add (m : GraphLinksModel) (n : Z) (data : NodeData) :
  0 ≤ n → key data = None → node_keys_upto m n →
  node_keys_upto (addNodeData m data) (n + 1).
Proof.
  intros Hn Hkey Hkeys.
  assert (Hscan : scan_up m 1 = n + 1).
  { apply scan_up_unique; [lia| |].
    - destruct (findNodeDataForKey m (n + 1)) as [x|] eqn:Hx; [|done].
      assert (1 ≤ n + 1 ≤ n) by (apply Hkeys; eauto). lia.
    - intros j Hj. apply Hkeys. lia. }
  rewrite (addNodeData_keyless m data Hkey), Hscan.
  intros k. unfold findNodeDataForKey. simpl.
  destruct (decide (n + 1 = k)) as [<-|Hne].
  - rewrite lookup_insert_eq. split; [lia|eauto].
  - rewrite lookup_insert_ne by done.
    etrans; [apply Hkeys|]. lia.
Qed.

Lemma link_keys_downto_add (m : GraphLinksModel) (n : Z) (data : LinkData) :
  0 ≤ n → lkey data = None → link_keys_downto m n →
  link_keys_downto (addLinkData m data) (n + 1).
Proof.
  intros Hn Hkey Hkeys.
  assert (Hscan : scan_down m (-1) = - (n + 1)).
  { apply scan_down_unique; [lia| |].
    - destruct (findLinkDataForKey m (- (n + 1))) as [x|] eqn:Hx; [|done].
      assert (- n ≤ - (n + 1) ≤ -1) by (apply Hkeys; eauto). lia.
    - intros j Hj. apply Hkeys. lia. }
  rewrite (addLinkData_keyless m data Hkey), Hscan.
  intros k. unfold findLinkDataForKey. simpl.
  destruct (decide (- (n + 1) = k)) as [<-|Hne].
  - rewrite lookup_insert_eq. split; [lia|eauto].
  - rewrite lookup_insert_ne by done.
    etrans; [apply Hkeys|]. lia.
Qed.

Lemma node_keys_upto_foldl (ds : list NodeData) :
  Forall (λ d, key d = None) ds →
  ∀ m n, 0 ≤ n → node_keys_upto m n →
         node_keys_upto (foldl addNodeData m ds) (n + Z.of_nat (length ds)).
Proof.
  induction 1 as [|d ds Hd _ IH]; intros m n Hn Hkeys; cbn [foldl length].
  - by rewrite Z.add_0_r.
  - replace (n + Z.of_nat (S (length ds)))
      with (n + 1 + Z.of_nat (length ds)) by lia.
    apply IH; [lia|]. by apply node_keys_upto_add.
Qed.

Lemma link_keys_downto_foldl (ds : list LinkData) :
  Forall (λ d, lkey d = None) ds →
  ∀ m n, 0 ≤ n → link_keys_downto m n →
         link_keys_downto (foldl addLinkData m ds) (n + Z.of_nat (length ds)).
Proof.
  induction 1 as [|d ds Hd _ IH]; intros m n Hn Hkeys; cbn [foldl length].
  - by rewrite Z.add_0_r.
  - replace (n + Z.of_nat (S (length ds)))
      with (n + 1 + Z.of_nat (length ds)) by lia.
    apply IH; [lia|]. by apply link_keys_downto_add.
Qed.

(** X7.  Records inserted one after the other into the empty model
    without a key are numbered in order: after [n] node records the node
    keys in use are exactly 1, ..., [n], and after [n] link records the
    link keys in use are exactly -1, ..., -[n]. *)
Theorem keyless_insertions_are_numbered
  (nds : list NodeData) (lds : list LinkData) :
  Forall (λ d, key d = None) nds →
  Forall (λ d, lkey d = None) lds →
  node_keys_upto (foldl addNodeData empty_model nds) (Z.of_nat (length nds))
  ∧ link_keys_downto (foldl addLinkData empty_model lds)
      (Z.of_nat (length lds)).
Proof.
  intros Hnds Hlds. split.
  - apply (node_keys_upto_foldl nds Hnds empty_model 0); [lia|].
    intros k. unfold findNodeDataForKey. simpl. rewrite lookup_empty.
    split; [by intros [? ?]|lia].
  - apply (link_keys_downto_foldl lds Hlds empty_model 0); [lia|].
    intros k. unfold findLinkDataForKey. simpl. rewrite lookup_empty.
    split; [by intros [? ?]|lia].
Qed.

Lemma keyless_insertions_are_numbered_witness :
  node_keys_upto
    (foldl addNodeData empty_model
       [mkNodeData None None "Start" Start;
        mkNodeData None None "Display Screen" Screen;
        mkNodeData None None "End" End_]) 3
  ∧ link_keys_downto
      (foldl addLinkData empty_model
         [mkLinkData None 1 2 "R" "L"; mkLinkData None 2 3 "R" "L"]) 2.
Proof.
  apply (keyless_insertions_are_numbered
           [mkNodeData None None "Start" Start;
            mkNodeData None None "Display Screen" Screen;
            mkNodeData None None "End" End_]
           [mkLinkData None 1 2 "R" "L"; mkLinkData None 2 3 "R" "L"]).
  - repeat constructor.
  - repeat constructor.
Defined.

(** X8.  Freed keys are taken first: once the node record under a
    positive key [k] is deleted, the next record inserted without a key
    is given the smaller of [k] and the key it would have been given
    before the deletion. *)
Theorem allocation_after_deletion
  (m : GraphLinksModel) (removed data : NodeData) (k : Z) :
  key removed = Some k → 0 < k →
  is_Some (findNodeDataForKey m k) →
  key data = None →
  fst (makeUniqueKeyFunction (removeNodeData m removed) data)
  = Z.min k (fst (makeUniqueKeyFunction m data)).
Proof.
  intros Hrem Hpos [nd Hin] Hkey.
  unfold makeUniqueKeyFunction, removeNodeData. rewrite Hrem, Hkey. simpl.
  destruct (scan_up_spec m 1) as (Hle & Hfree & Hused).
  assert (Hne : scan_up m 1 ≠ k) by congruence.
  apply scan_up_unique; [lia| |].
  - unfold findNodeDataForKey in *. simpl.
    destruct (decide (k < scan_up m 1)).
    + rewrite Z.min_l by lia. apply lookup_delete_eq.
    + rewrite Z.min_r by lia. rewrite lookup_delete_ne by done. done.
  - intros j Hj. unfold findNodeDataForKey in *. simpl.
    rewrite lookup_delete_ne by lia. apply Hused. lia.
Qed.

Lemma allocation_after_deletion_witness :
  fst (makeUniqueKeyFunction
         (removeNodeData model_1_2 (mkNodeData (Some 1) None "Start" Start))
         (mkNodeData None None "Display Screen" Screen))
  = Z.min 1 (fst (makeUniqueKeyFunction model_1_2
                    (mkNodeData None None "Display Screen" Screen))).
Proof.
  apply (allocation_after_deletion model_1_2
           (mkNodeData (Some 1) None "Start" Start)
           (mkNodeData None None "Display Screen" Screen) 1).
  - reflexivity.
  - lia.
  - vm_compute. eauto.
  - reflexivity.
Defined.

(** ** Drops, one after the other *)






Example three_drops :
  foldl handleDrop (Some fresh_diagram)
    [drop_area_at_10_20; drop_tools_at_300_40; drop_happen_at_5_500]
  = Some (mkDiagram (λ p, p)
            (mkModel
               (<[1 := mkNodeData (Some 1) (Some (mkPoint 70 70))
                         "Branching" Branching]>
                  (<[2 := mkNodeData (Some 2) (Some (mkPoint 70 70))
                            "Start" Start]>
                     (<[3 := mkNodeData (Some 3) (Some (mkPoint 70 70))
                               "End" End_]> ∅))) ∅)).
Proof. vm_compute. reflexivity. Qed.

(** ** Categories, labels and templates *)

(** X11.  The two switches of the drop handler agree: the label is the
    name of the category, except that a Screen node is labelled
    "Display Screen"; so two dropped texts get the same label exactly
    when they get the same category. *)
Theorem label_follows_category (text1 text2 : string) :
  determineNodeText text1
  = match determineNodeType text1 with
    | Screen => "Display Screen"
    | named => DropType_value named
    end
  ∧ (determineNodeText text1 = determineNodeText text2
     ↔ determineNodeType text1 = determineNodeType text2).
Proof.
  unfold determineNodeText, determineNodeType.
  destruct (String.eqb text1 "area"), (String.eqb text1 "tools"),
    (String.eqb text1 "happen"), (String.eqb text2 "area"),
    (String.eqb text2 "tools"), (String.eqb text2 "happen");
    (split; [reflexivity|split; intros Heq; first [reflexivity|discriminate Heq]]).
Qed.



(** ** The "Modified" listener *)

Lemma index_star_cons (c : ascii) (s : string) :
  String.index 0 "*" (String c s)
  = if decide (c = "*"%char) then Some 0%nat
    else S <$> String.index 0 "*" s.
Proof.
  cbn [String.index].
  assert (Hprefix : String.prefix "*" (String c s)
                    = bool_decide (c = "*"%char)).
  { cbn [String.prefix]. destruct (Ascii.ascii_dec "*" c) as [<-|Hne].
    - by destruct s.
    - symmetry. by apply bool_decide_eq_false_2. }
  rewrite Hprefix. destruct (decide (c = "*"%char)) as [->|Hne].
  - reflexivity.
  - rewrite bool_decide_eq_false_2 by done.
    destruct (String.index 0 "*" s); reflexivity.
Qed.

Lemma index_star_append (s : string) :
  String.index 0 "*" s = None →
  String.index 0 "*" (String.append s "*") = Some (String.length s).
Proof.
  induction s as [|c s IH]; [reflexivity|].
  change (String.append (String c s) "*")
    with (String c (String.append s "*")).
  cbn [String.length]. rewrite !index_star_cons.
  destruct (decide (c = "*"%char)); [done|].
  destruct (String.index 0 "*" s) as [j|] eqn:Hj; [done|].
  intros _. by rewrite IH.
Qed.

Lemma substring_append_star (s : string) :
  String.substring 0 (String.length s) (String.append s "*") = s.
Proof.
  induction s as [|c s IH]; [reflexivity|].
  change (String.append (String c s) "*")
    with (String c (String.append s "*")).
  cbn [String.length String.substring]. by rewrite IH.
Qed.

Lemma index_star_substring (s : string) (i : nat) :
  String.index 0 "*" s = Some i →
  String.index 0 "*" (String.substring 0 i s) = None.
Proof.
  revert i. induction s as [|c s IH]; intros i; [done|].
  rewrite index_star_cons. destruct (decide (c = "*"%char)) as [->|Hne].
  - intros [= <-]. reflexivity.
  - destruct (String.index 0 "*" s) as [j|] eqn:Hj; [|done].
    intros [= <-]. cbn [String.substring]. rewrite index_star_cons.
    rewrite decide_False by done. by rewrite (IH j).
Qed.

Lemma prefix_substring (s : string) (i : nat) :
  String.prefix (String.substring 0 i s) s = true.
Proof.
  revert i. induction s as [|c s IH]; intros [|i]; try reflexivity.
  cbn [String.substring String.prefix].
  destruct (Ascii.ascii_dec c c); [apply IH|done].
Qed.

Lemma prefix_append (s t : string) :
  String.prefix s (String.append s t) = true.
Proof.
  induction s as [|c s IH]; [by destruct t|].
  change (String.append (String c s) t) with (String c (String.append s t)).
  cbn [String.prefix]. destruct (Ascii.ascii_dec c c); [apply IH|done].
Qed.

Lemma prefix_refl (s : string) : String.prefix s s = true.
Proof.
  induction s as [|c s IH]; [done|].
  cbn [String.prefix]. destruct (Ascii.ascii_dec c c); [apply IH|done].
Qed.

(** X13.  After the "Modified" listener has run, the page title holds a
    star exactly when the diagram is modified.  A modified diagram only
    ever lengthens the title, a saved one only ever cuts it short; and
    the save button, where there is one, is disabled exactly when the
    diagram is not modified. *)
Theorem title_star_iff_modified
  (isModified : bool) (document : InitGoDiagram.Document) :
  (is_Some (String.index 0 "*"
              (InitGoDiagram.title
                 (InitGoDiagram.modifiedListener isModified document)))
   ↔ isModified = true)
  ∧ (if isModified
     then String.prefix (InitGoDiagram.title document)
            (InitGoDiagram.title
               (InitGoDiagram.modifiedListener isModified document))
     else String.prefix
            (InitGoDiagram.title
               (InitGoDiagram.modifiedListener isModified document))
            (InitGoDiagram.title document)) = true
  ∧ InitGoDiagram.saveButton
      (InitGoDiagram.modifiedListener isModified document)
    = (λ _, InitGoDiagram.mkButton (negb isModified))
        <$> InitGoDiagram.saveButton document.
Proof.
  unfold InitGoDiagram.modifiedListener.
  destruct document as [button title]. simpl.
  destruct isModified;
    destruct (String.index 0 "*" title) as [i|] eqn:Hidx; simpl.
  - rewrite Hidx. split; [by split; eauto|].
    split; [apply prefix_refl|by destruct button].
  - rewrite (index_star_append title Hidx). split; [by split; eauto|].
    split; [apply prefix_append|by destruct button].
  - rewrite (index_star_substring title i Hidx).
    split; [split; [by intros [? ?]|done]|].
    split; [apply prefix_substring|by destruct button].
  - rewrite Hidx. split; [split; [by intros [? ?]|done]|].
    split; [apply prefix_refl|by destruct button].
Qed.

(** X14.  The "Modified" listener is idempotent, and saving wipes out
    what modifying did: running it for a modified and then for a saved
    diagram leaves the page as running it for the saved diagram alone. *)
Theorem modifiedListener_idempotent
  (isModified : bool) (document : InitGoDiagram.Document) :
  InitGoDiagram.modifiedListener isModified
    (InitGoDiagram.modifiedListener isModified document)
  = InitGoDiagram.modifiedListener isModified document
  ∧ InitGoDiagram.modifiedListener false
      (InitGoDiagram.modifiedListener true document)
    = InitGoDiagram.modifiedListener false document.
Proof.
  unfold InitGoDiagram.modifiedListener.
  destruct document as [button title]. simpl.
  destruct (String.index 0 "*" title) as [i|] eqn:Hidx; simpl.
  - split.
    + destruct isModified; simpl.
      * rewrite Hidx. by destruct button.
      * rewrite (index_star_substring title i Hidx). by destruct button.
    + rewrite Hidx. by destruct button.
  - split.
    + destruct isModified; simpl.
      * rewrite (index_star_append title Hidx). by destruct button.
      * rewrite Hidx. by destruct button.
    + rewrite (index_star_append title Hidx), substring_append_star.
      by destruct button.
Qed.

(** X15.  Modify, then save: on a page whose title holds no star, the
    listener run for a modified and then for a saved diagram gives the
    title back as it was. *)
Theorem modify_then_save_restores_title (document : InitGoDiagram.Document) :
  String.index 0 "*" (InitGoDiagram.title document) = None →
  InitGoDiagram.title
    (InitGoDiagram.modifiedListener false
       (InitGoDiagram.modifiedListener true document))
  = InitGoDiagram.title document.
Proof.
  intros Hidx. unfold InitGoDiagram.modifiedListener.
  destruct document as [button title]. simpl in *.
  rewrite Hidx. simpl.
  by rewrite (index_star_append title Hidx), substring_append_star.
Qed.

Lemma modify_then_save_restores_title_witness :
  InitGoDiagram.title
    (InitGoDiagram.modifiedListener false
       (InitGoDiagram.modifiedListener true page_untitled))
  = InitGoDiagram.title page_untitled.
Proof.
  apply (modify_then_save_restores_title page_untitled). reflexivity.
Defined.

(** A title that holds a star of its own loses whatever follows it. *)
Example saved_title_is_cut_at_first_star :
  InitGoDiagram.title
    (InitGoDiagram.modifiedListener false
       (InitGoDiagram.mkDocument None "2*3 chart"))
  = "2".
Proof. reflexivity. Qed.

(** ** Mouse handlers *)

(** X16.  Hovering over a port never changes what the port allows: after
    [mouseEnter], in a diagram that is read-only or not, the port has the
    name and the link permissions it had; in a read-only diagram nothing
    changes at all; and for a port as [makePort] makes it, [mouseLeave]
    after [mouseEnter] gives the port back as it was. *)
Theorem port_hover_round_trip
  (isReadOnly : bool) (ps : InitGoJs.Port)
  (name : string) (align spot : InitGoJs.Spot) (output input : bool) :
  (∃ ps', InitGoDiagram.mouseEnter isReadOnly (InitGoDiagram.Shape ps)
          = InitGoDiagram.Shape ps'
          ∧ InitGoJs.portId ps' = InitGoJs.portId ps
          ∧ InitGoJs.fromLinkable ps' = InitGoJs.fromLinkable ps
          ∧ InitGoJs.toLinkable ps' = InitGoJs.toLinkable ps)
  ∧ InitGoDiagram.mouseEnter true (InitGoDiagram.Shape ps)
    = InitGoDiagram.Shape ps
  ∧ InitGoDiagram.mouseLeave
      (InitGoDiagram.mouseEnter isReadOnly
         (InitGoDiagram.Shape (InitGoJs.makePort name align spot output input)))
    = InitGoDiagram.Shape (InitGoJs.makePort name align spot output input).
Proof.
  split; [|split].
  - destruct isReadOnly; eexists; (split; [reflexivity|]); by repeat split.
  - reflexivity.
  - destruct isReadOnly; reflexivity.
Qed.

(** X17.  The link template's [mouseEnter] and [mouseLeave] fail exactly
    on a link that has no part named HIGHLIGHT.  On a link whose
    highlight is transparent, as the template makes it, entering and
    then leaving succeeds and gives the link back as it was. *)
Theorem link_highlight_round_trip (link : LinkTemplate.Link) :
  (LinkTemplate.mouseEnter link = None
   ↔ LinkTemplate.findObject link "HIGHLIGHT" = None)
  ∧ (LinkTemplate.mouseLeave link = None
     ↔ LinkTemplate.findObject link "HIGHLIGHT" = None)
  ∧ ∀ shape,
      LinkTemplate.findObject link "HIGHLIGHT" = Some shape →
      LinkTemplate.stroke shape = "transparent" →
      LinkTemplate.mouseEnter link ≫= LinkTemplate.mouseLeave = Some link.
Proof.
  unfold LinkTemplate.mouseEnter, LinkTemplate.mouseLeave.
  split; [|split].
  - by destruct (LinkTemplate.findObject link "HIGHLIGHT").
  - by destruct (LinkTemplate.findObject link "HIGHLIGHT").
  - intros [colour w] Hfind Hstroke. simpl in Hstroke. subst colour.
    rewrite Hfind. simpl. unfold LinkTemplate.findObject in *.
    rewrite lookup_insert_eq. simpl.
    rewrite insert_insert_eq. by rewrite insert_id.
Qed.

Lemma link_highlight_round_trip_witness :
  LinkTemplate.mouseEnter LinkTemplate.linkTemplate
    ≫= LinkTemplate.mouseLeave
  = Some LinkTemplate.linkTemplate.
Proof.
  destruct (link_highlight_round_trip LinkTemplate.linkTemplate)
    as (_ & _ & Hround).
  apply (Hround (LinkTemplate.mkShape "transparent" 8)); reflexivity.
Defined.

(** ** Link labels and the templates of [initGoDiagram] *)

(** X18.  [showLinkLabel] is idempotent, and it neither adds a part to
    the link nor takes one away. *)
Theorem showLinkLabel_idempotent (l : InitGoJs.Link) :
  InitGoJs.showLinkLabel (InitGoJs.showLinkLabel l) = InitGoJs.showLinkLabel l
  ∧ dom (InitGoJs.parts (InitGoJs.showLinkLabel l)) = dom (InitGoJs.parts l).
Proof.
  unfold InitGoJs.showLinkLabel at 2 3 4.
  destruct (InitGoJs.findObject l "LABEL") as [label|] eqn:Hlabel.
  - unfold InitGoJs.showLinkLabel, InitGoJs.findObject in *. simpl.
    rewrite lookup_insert_eq. simpl. rewrite insert_insert_eq.
    split; [reflexivity|].
    rewrite dom_insert_L. apply subseteq_union_1_L.
    apply singleton_subseteq_l, elem_of_dom. eauto.
  - unfold InitGoJs.showLinkLabel. by rewrite Hlabel.
Qed.



(** ** Variant B on a canvas without extent *)

(** X20.  In variant B a bounding box of width 0 or of height 0 counts as
    one of width, or height, 0.001: a drop on a canvas whose box has no
    extent is handled as the same drop on a canvas whose box measures
    0.001 by 0.001. *)
Theorem zero_extent_counts_as_0_001
  (d : Diagram) (event : DragEvent) (w h : float) (bbox : DOMRect) :
  target event = HTMLCanvasElement w h bbox →
  PrimFloat.eqb (rect_width bbox) 0 = true →
  PrimFloat.eqb (rect_height bbox) 0 = true →
  VariantB.handleDrop (Some d) event
  = VariantB.handleDrop (Some d)
      (mkDragEvent (dataTransfer event) (clientX event) (clientY event)
         (HTMLCanvasElement w h
            (mkRect (left bbox) (top bbox) 0.001 0.001))).
Proof.
  intros Htarget Hw Hh. unfold VariantB.handleDrop.
  rewrite Htarget. cbn [target clientX clientY rect_width rect_height left top].
  rewrite Hw, Hh.
  change (PrimFloat.eqb 0.001 0) with false. reflexivity.
Qed.

Lemma zero_extent_counts_as_0_001_witness :
  VariantB.handleDrop (Some fresh_diagram) collapsed_canvas_drop
  = VariantB.handleDrop (Some fresh_diagram)
      (mkDragEvent None 100 100
         (HTMLCanvasElement 250 500 (mkRect 50 20 0.001 0.001))).
Proof.
  apply (zero_extent_counts_as_0_001 fresh_diagram collapsed_canvas_drop
           250%float 500%float (mkRect 50 20 0 0)); reflexivity.
Defined.

(** ** Mounting and unmounting *)

Lemma filter_ne_id (ls : list (string * Lifecycle.Callback * bool))
  (x : string * Lifecycle.Callback * bool) :
  x ∉ ls → filter (λ l, l ≠ x) ls = ls.
Proof.
  induction ls as [|y ls IH]; [done|].
  intros [Hne Hnin]%not_elem_of_cons.
  rewrite filter_cons_True by done. by rewrite IH.
Qed.

Lemma addEventListener_new (ls : list (string * Lifecycle.Callback * bool))
  (type : string) (listener : Lifecycle.Callback) (capture : bool) :
  (type, listener, capture) ∉ ls →
  Lifecycle.addEventListener ls type listener capture
  = ls ++ [(type, listener, capture)].
Proof. intros Hnew. unfold Lifecycle.addEventListener. by rewrite decide_False. Qed.

Lemma add_then_remove (ls : list (string * Lifecycle.Callback * bool))
  (type : string) (listener : Lifecycle.Callback)
  (rest : list (string * Lifecycle.Callback * bool)) :
  (type, listener, false) ∉ ls →
  (type, listener, false) ∉ rest →
  Lifecycle.removeEventListener
    (ls ++ (type, listener, false) :: rest) type listener
  = ls ++ rest.
Proof.
  intros Hls Hrest. unfold Lifecycle.removeEventListener.
  rewrite filter_app, filter_cons_False by (intros Hne; by apply Hne).
  by rewrite !filter_ne_id.
Qed.

Lemma remove_first_app
  (x : string * Lifecycle.Callback) (l : list (string * Lifecycle.Callback)) :
  x ∉ l → Lifecycle.remove_first x (l ++ [x]) = l.
Proof.
  induction l as [|y l IH]; simpl.
  - intros _. by rewrite decide_True.
  - intros [Hne Hnin]%not_elem_of_cons.
    rewrite decide_False by done. by rewrite IH.
Qed.

(** X21.  Unmounting undoes mounting: when none of the component's
    functions is registered before it mounts, [componentWillUnmount]
    after [componentDidMount] leaves the listeners of the diagram's
    element and of the diagram exactly as they were.  Without a diagram
    reference, or without a diagram, both do nothing. *)
Theorem unmount_undoes_mount (w : Lifecycle.DiagramWrapper) :
  (∀ d, Lifecycle.current w = Some (Some d) → Lifecycle.unregistered w d) →
  Lifecycle.componentWillUnmount (Lifecycle.componentDidMount w) = w.
Proof.
  intros Hfresh. destruct w as [[[[[ls|] dls]|]|] cb]; try reflexivity.
  - destruct (Hfresh _ eq_refl) as [Hdom Hdiagram].
    destruct (Hdom ls eq_refl) as (Henter & Hover & Hdrop).
    simpl in Hdiagram.
    unfold Lifecycle.componentDidMount, Lifecycle.componentWillUnmount,
      Lifecycle.on_div, Lifecycle.addDiagramListener,
      Lifecycle.removeDiagramListener.
    cbn [Lifecycle.current Lifecycle.div Lifecycle.diagramListeners
         Lifecycle.onDiagramEvent].
    rewrite (addEventListener_new ls) by done.
    rewrite (addEventListener_new (ls ++ _))
      by (rewrite elem_of_app, list_elem_of_singleton; intros [?|?]; done).
    rewrite (addEventListener_new ((ls ++ _) ++ _))
      by (rewrite !elem_of_app, !list_elem_of_singleton;
          intros [[?|?]|?]; done).
    rewrite <- !app_assoc. cbn [app].
    rewrite add_then_remove
      by (first [done
                |rewrite !elem_of_cons, elem_of_nil; intros [?|[?|?]]; done]).
    rewrite add_then_remove
      by (first [done
                |rewrite !elem_of_cons, elem_of_nil; intros [?|?]; done]).
    rewrite (add_then_remove ls "drop" Lifecycle.HandleDrop [])
      by (first [done|apply not_elem_of_nil]).
    rewrite app_nil_r, remove_first_app by done. reflexivity.
  - destruct (Hfresh _ eq_refl) as [_ Hdiagram]. simpl in Hdiagram.
    unfold Lifecycle.componentDidMount, Lifecycle.componentWillUnmount,
      Lifecycle.on_div, Lifecycle.addDiagramListener,
      Lifecycle.removeDiagramListener.
    cbn [Lifecycle.current Lifecycle.div Lifecycle.diagramListeners
         Lifecycle.onDiagramEvent].
    rewrite remove_first_app by done. reflexivity.
Qed.

Lemma unmount_undoes_mount_witness :
  Lifecycle.componentWillUnmount
    (Lifecycle.componentDidMount wrapper_before_mount)
  = wrapper_before_mount.
Proof.
  apply (unmount_undoes_mount wrapper_before_mount).
  intros d [= <-]. split.
  - intros ls [= <-].
    rewrite !list_elem_of_singleton. repeat split; discriminate.
  - simpl. rewrite list_elem_of_singleton. discriminate.
Defined.

(** X22.  Mounting registers what a drop needs: when the diagram has an
    element, after [componentDidMount] the element has the component's
    handlers for "dragenter", "dragover" and "drop", every listener it
    had before, and the diagram has the [onDiagramEvent] function for
    "ChangedSelection". *)
Theorem mount_registers_listeners
  (w : Lifecycle.DiagramWrapper) (d : Lifecycle.Diagram)
  (ls : Lifecycle.EventListeners) :
  Lifecycle.current w = Some (Some d) →
  Lifecycle.div d = Some ls →
  ∃ d' ls',
    Lifecycle.current (Lifecycle.componentDidMount w) = Some (Some d')
    ∧ Lifecycle.div d' = Some ls'
    ∧ ("dragenter", Lifecycle.HandleDragEnter, false) ∈ ls'
    ∧ ("dragover", Lifecycle.HandleDragOver, false) ∈ ls'
    ∧ ("drop", Lifecycle.HandleDrop, false) ∈ ls'
    ∧ ls ⊆ ls'
    ∧ ("ChangedSelection", Lifecycle.onDiagramEvent w)
      ∈ Lifecycle.diagramListeners d'.
Proof.
  intros Hcurrent Hdiv.
  destruct w as [current cb], d as [div dls]. simpl in *. subst.
  unfold Lifecycle.componentDidMount, Lifecycle.on_div,
    Lifecycle.addDiagramListener.
  cbn [Lifecycle.current Lifecycle.div Lifecycle.diagramListeners
       Lifecycle.onDiagramEvent].
  eexists _, _. split; [reflexivity|]. split; [reflexivity|].
  assert (Hadd : ∀ (l : Lifecycle.EventListeners) type listener capture,
            (type, listener, capture)
              ∈ Lifecycle.addEventListener l type listener capture
            ∧ l ⊆ Lifecycle.addEventListener l type listener capture).
  { intros l type listener capture. unfold Lifecycle.addEventListener.
    destruct (decide ((type, listener, capture) ∈ l)); [done|].
    split; [set_solver|]. intros x Hx. apply elem_of_app. by left. }
  set (l1 := Lifecycle.addEventListener ls "dragenter"
               Lifecycle.HandleDragEnter false).
  set (l2 := Lifecycle.addEventListener l1 "dragover"
               Lifecycle.HandleDragOver false).
  destruct (Hadd ls "dragenter" Lifecycle.HandleDragEnter false) as [H1 S1].
  destruct (Hadd l1 "dragover" Lifecycle.HandleDragOver false) as [H2 S2].
  destruct (Hadd l2 "drop" Lifecycle.HandleDrop false) as [H3 S3].
  fold l1 in H1, S1. fold l2 in H2, S2.
  split; [apply S3, S2, H1|]. split; [apply S3, H2|]. split; [exact H3|].
  split; [by etrans; [|etrans]|].
  apply elem_of_app. right. by apply list_elem_of_singleton.
Qed.

Lemma mount_registers_listeners_witness :
  ∃ d' ls',
    Lifecycle.current (Lifecycle.componentDidMount wrapper_before_mount)
    = Some (Some d')
    ∧ Lifecycle.div d' = Some ls'
    ∧ ("dragenter", Lifecycle.HandleDragEnter, false) ∈ ls'
    ∧ ("dragover", Lifecycle.HandleDragOver, false) ∈ ls'
    ∧ ("drop", Lifecycle.HandleDrop, false) ∈ ls'
    ∧ [("click", Lifecycle.PropFunction 7, false)] ⊆ ls'
    ∧ ("ChangedSelection",
       Lifecycle.onDiagramEvent wrapper_before_mount)
      ∈ Lifecycle.diagramListeners d'.
Proof.
  apply (mount_registers_listeners wrapper_before_mount
           (Lifecycle.mkDiagram
              (Some [("click", Lifecycle.PropFunction 7, false)])
              [("Modified", Lifecycle.PropFunction 3)])
           [("click", Lifecycle.PropFunction 7, false)]); reflexivity.
Defined.

Example mount_wrapper :
  Lifecycle.componentDidMount wrapper_before_mount
  = Lifecycle.mkWrapper
      (Some (Some (Lifecycle.mkDiagram
                     (Some [("click", Lifecycle.PropFunction 7, false);
                            ("dragenter", Lifecycle.HandleDragEnter, false);
                            ("dragover", Lifecycle.HandleDragOver, false);
                            ("drop", Lifecycle.HandleDrop, false)])
                     [("Modified", Lifecycle.PropFunction 3);
                      ("ChangedSelection", Lifecycle.PropFunction 1)])))
      (Lifecycle.PropFunction 1).
Proof. vm_compute. reflexivity. Qed.

(** ** Nodes and links are numbered apart *)

(** X23.  The key a node record is given does not depend on the link
    records of the model, and the key a link record is given does not
    depend on the node records. *)
Theorem allocation_ignores_other_kind
  (m : GraphLinksModel) (ns : gmap Z NodeData) (ls : gmap Z LinkData)
  (nd : NodeData) (ld : LinkData) :
  fst (makeUniqueKeyFunction (mkModel (nodes m) ls) nd)
  = fst (makeUniqueKeyFunction m nd)
  ∧ fst (makeUniqueLinkKeyFunction (mkModel ns (links m)) ld)
    = fst (makeUniqueLinkKeyFunction m ld).
Proof.
  unfold makeUniqueKeyFunction, makeUniqueLinkKeyFunction. simpl. split.
  - destruct (scan_up_spec m (key_or (key nd) 1)) as (Hle & Hfree & Hused).
    by apply scan_up_unique.
  - destruct (scan_down_spec m (key_or (lkey ld) (-1)))
      as (Hle & Hfree & Hused).
    by apply scan_down_unique.
Qed.

(** So a link may be given a key that a node was given by hand. *)
Example link_key_of_a_node :
  findNodeDataForKey model_with_negative_node (-1)
  = Some (mkNodeData (Some (-1)) None "Start" Start)
  ∧ fst (makeUniqueLinkKeyFunction model_with_negative_node
           (mkLinkData None 1 2 "R" "L")) = -1.
Proof. split; vm_compute; reflexivity. Qed.
